(** * SOLID principles: the README's snippets and their standalone mirrors

    The repository is a README with paired "Bad" / "Good" TypeScript snippets
    (one pair per SOLID principle) and a few standalone snippet files.  Each
    snippet is embedded below in a module of its own: a class becomes a record
    of its fields, a method becomes a computation over its receiver, and a
    thrown [Error] is a result of the computation.  The texts of the snippet
    files and of the README's fenced blocks are embedded as lists of lines. *)

From Stdlib Require Import String Ascii List ZArith Bool Lia.
Import ListNotations.
Local Open Scope string_scope.
Local Open Scope list_scope.

(* ================================================================== *)
(** ** The fragment of JavaScript the snippets run on *)
(* ================================================================== *)

Module Js.

(** Values of untyped positions.  Numbers are the integer-valued ones (a [Z]
    below 2^53 in magnitude is an exact JS number, and [*] on such operands is
    exact as long as the product stays in that range). *)
Inductive JsValue : Type :=
| JsUndefined
| JsNull
| JsBoolean (b : bool)
| JsNumber (n : Z)
| JsString (s : string).

(** [===] on these values. *)
Definition strict_equals (a b : JsValue) : bool :=
  match a, b with
  | JsUndefined, JsUndefined => true
  | JsNull, JsNull => true
  | JsBoolean x, JsBoolean y => Bool.eqb x y
  | JsNumber x, JsNumber y => Z.eqb x y
  | JsString x, JsString y => String.eqb x y
  | _, _ => false
  end.

(** [new Error(message)]. *)
Record Error : Type := mkError { message : string }.

(** How a call ends: it returns a value or it throws. *)
Inductive Completion (A : Type) : Type :=
| Normal (a : A)
| Throw (e : Error).
Arguments Normal {A} a.
Arguments Throw {A} e.

(** A computation over a mutable receiver (or array) of type [S].  It yields
    the calls it made, in order ([E] is the snippet's type of call events),
    the receiver as the computation left it, and its completion.  A throw
    keeps the events and the mutations made before it. *)
Definition M (S E A : Type) : Type := S -> list E * S * Completion A.

(** The event type of code that calls nothing. *)
Definition NoCall : Type := Empty_set.

Section Monad.
Context {S E : Type}.

Definition ret {A} (a : A) : M S E A := fun s => ([], s, Normal a).

Definition bind {A B} (m : M S E A) (k : A -> M S E B) : M S E B :=
  fun s =>
    match m s with
    | (ev, s', Normal a) =>
        match k a s' with
        | (ev', s'', c) => (ev ++ ev', s'', c)
        end
    | (ev, s', Throw e) => (ev, s', Throw e)
    end.

(** The statement [throw e;]. *)
Definition throw {A} (e : Error) : M S E A := fun s => ([], s, Throw e).

(** Reading [this]. *)
Definition this : M S E S := fun s => ([], s, Normal s).

(** An assignment [this.f = v;], given as the update of the receiver. *)
Definition assign (f : S -> S) : M S E unit := fun s => ([], f s, Normal tt).

(** A call site [this.m(...)]: the call is recorded, then the callee runs. *)
Definition call {A} (ev : S -> E) (callee : M S E A) : M S E A :=
  fun s =>
    match callee s with
    | (evs, s', c) => (ev s :: evs, s', c)
    end.

(** A computation that calls nothing, run where calls are recorded. *)
Definition quiet {A} (m : M S NoCall A) : M S E A :=
  fun s =>
    match m s with
    | (_, s', c) => ([], s', c)
    end.

End Monad.

(** A computation on the object held in a field, [this.f.m(...)]: [get] reads
    the field and [set] stores the object as the call left it. *)
Definition on_field {S F E A} (get : S -> F) (set : F -> S -> S)
  (m : M F E A) : M S E A :=
  fun s =>
    match m (get s) with
    | (ev, f', c) => (ev, set f' s, c)
    end.

Notation "x <- c1 ;; c2" := (bind c1 (fun x => c2))
  (at level 61, c1 at next level, right associativity).
Notation "c1 ;; c2" := (bind c1 (fun _ => c2))
  (at level 61, right associativity).

(** [for (const x of xs) { body }] and [xs.forEach(x => { body })]: the body
    runs on each element in order, with the element as its receiver; the
    first throw ends the loop and leaves the later elements untouched.  The
    array is the list of its elements' values: the elements are distinct
    objects. *)
Fixpoint forEach {S E A} (body : M S E A) (xs : list S)
  : list E * list S * Completion unit :=
  match xs with
  | [] => ([], [], Normal tt)
  | x :: rest =>
      match body x with
      | (ev, x', Normal _) =>
          match forEach body rest with
          | (ev', rest', c) => (ev ++ ev', x' :: rest', c)
          end
      | (ev, x', Throw e) => (ev, x' :: rest, Throw e)
      end
  end.

(** The three parts of a finished run. *)
Definition events {S E A} (r : list E * S * Completion A) : list E :=
  fst (fst r).
Definition final {S E A} (r : list E * S * Completion A) : S :=
  snd (fst r).
Definition completion {S E A} (r : list E * S * Completion A) : Completion A :=
  snd r.

(** An empty method body ([// ...]): no call, no mutation, no return value,
    no throw. *)
Definition empty_body {S E} : M S E JsValue := ret JsUndefined.

(** The integers that a JS number holds exactly, up to
    [Number.MAX_SAFE_INTEGER] = 2^53 - 1 in magnitude.  A product of two of
    them that is one of them again is the number that [*] returns; beyond
    that [*] rounds, and the product in [Z] is no longer what the code
    computes. *)
Definition safe_integer (z : Z) : Prop := (Z.abs z <= 9007199254740991)%Z.

Definition safe_product (a b : Z) : Prop :=
  safe_integer a /\ safe_integer b /\ safe_integer (a * b).

End Js.

Import Js.

(* ================================================================== *)
(** ** Single responsibility principle *)
(* ================================================================== *)

Module SRP_Bad.

Record Salary : Type := new_Salary { }.

Definition calculateSalary : M Salary NoCall JsValue := empty_body.
Definition printPaycheck : M Salary NoCall JsValue := empty_body.
Definition saveData : M Salary NoCall JsValue := empty_body.

End SRP_Bad.

Module SRP_Good.

Record SalaryCalculate : Type := new_SalaryCalculate { }.
Record SalaryPaycheck : Type := new_SalaryPaycheck { }.
Record SalaryPersistence : Type := new_SalaryPersistence { }.

Definition calculate : M SalaryCalculate NoCall JsValue := empty_body.
Definition print : M SalaryPaycheck NoCall JsValue := empty_body.
Definition save : M SalaryPersistence NoCall JsValue := empty_body.

End SRP_Good.

(* ================================================================== *)
(** ** Open/closed principle, "Bad" *)
(* ================================================================== *)

Module OCP_Bad.

(** [class Employee { selectedNotifyChannel; ... }]: the field is declared
    [string] in the README and left untyped in the snippet file, and no
    constructor sets it. *)
Record Employee : Type := mkEmployee { selectedNotifyChannel : JsValue }.

Definition new_Employee : Employee :=
  {| selectedNotifyChannel := JsUndefined |}.

Definition set_selectedNotifyChannel (v : JsValue) (e : Employee) : Employee :=
  {| selectedNotifyChannel := v |}.

Inductive Event : Type :=
| sendEmailNotification_called (employee : Employee)
| sendSMSNotification_called (employee : Employee).

Definition sendEmailNotification : M Employee Event JsValue := empty_body.
Definition sendSMSNotification : M Employee Event JsValue := empty_body.

(** The body of the loop of [notifyAll]: the [switch] on the channel. *)
Definition notifyAll_body : M Employee Event JsValue :=
  employee <- this ;;
  if strict_equals (selectedNotifyChannel employee) (JsString "SMS") then
    call sendSMSNotification_called sendSMSNotification
  else if strict_equals (selectedNotifyChannel employee) (JsString "Email") then
    call sendEmailNotification_called sendEmailNotification
  else
    throw (mkError "Unknown Channel").

Definition notifyAll : M (list Employee) Event JsValue :=
  forEach notifyAll_body ;; ret JsUndefined.

(** The channels the [switch] has a case for, and the call each one gets. *)
Definition known_channel (e : Employee) : Prop :=
  selectedNotifyChannel e = JsString "SMS" \/
  selectedNotifyChannel e = JsString "Email".

Definition matching_send (e : Employee) : Event :=
  if strict_equals (selectedNotifyChannel e) (JsString "SMS")
  then sendSMSNotification_called e
  else sendEmailNotification_called e.

(** [known_channel] as a test, and the employees the loop gets through: those
    before the first one whose channel has no case. *)
Definition known_channelb (e : Employee) : bool :=
  strict_equals (selectedNotifyChannel e) (JsString "SMS")
  || strict_equals (selectedNotifyChannel e) (JsString "Email").

Fixpoint reached (employees : list Employee) : list Employee :=
  match employees with
  | [] => []
  | e :: rest => if known_channelb e then e :: reached rest else []
  end.

(** A call with its receiver changed by [f]: the same method is called. *)
Definition on_employee (f : Employee -> Employee) (ev : Event) : Event :=
  match ev with
  | sendEmailNotification_called e => sendEmailNotification_called (f e)
  | sendSMSNotification_called e => sendSMSNotification_called (f e)
  end.

End OCP_Bad.

(* ================================================================== *)
(** ** Open/closed principle, "Good" *)
(* ================================================================== *)

Module OCP_Good.

(** [interface Notifier { notify(); }].  A class is a [Notifier] when it has
    a [notify] method; what the method does is the class's own business, so
    it may mutate its receiver, return anything and throw. *)
Class Notifier (T : Type) : Type := { notify : M T NoCall JsValue }.

Record EmailNotifier : Type := new_EmailNotifier { }.
Record SMSNotifier : Type := new_SMSNotifier { }.

Definition EmailNotifier_notify : M EmailNotifier NoCall JsValue := empty_body.
Definition SMSNotifier_notify : M SMSNotifier NoCall JsValue := empty_body.

(** Both classes have the method the interface asks for (the README writes
    [implements Notifier]; the snippet file leaves the clause out, and the
    classes are Notifiers by their structure all the same). *)
#[export] Instance EmailNotifier_Notifier : Notifier EmailNotifier :=
  {| notify := EmailNotifier_notify |}.
#[export] Instance SMSNotifier_Notifier : Notifier SMSNotifier :=
  {| notify := SMSNotifier_notify |}.

(** A value of type [Notifier]: an object of some class that implements the
    interface. *)
Record NotifierObject : Type := mkNotifierObject {
  notifier_class : Type;
  notifier_implements : Notifier notifier_class;
  notifier_self : notifier_class
}.

(** [n.notify()] on such a value, by dynamic dispatch. *)
Definition NotifierObject_notify : M NotifierObject NoCall JsValue :=
  fun n =>
    match @notify _ (notifier_implements n) (notifier_self n) with
    | (ev, self', c) =>
        (ev, mkNotifierObject (notifier_class n) (notifier_implements n) self', c)
    end.

Record Employee : Type := mkEmployee {
  notifier : NotifierObject;
  selectedNotifyChannel : JsValue
}.

(** [constructor(notifier: Notifier) { this.notifier = notifier; }]. *)
Definition new_Employee (n : NotifierObject) : Employee :=
  {| notifier := n; selectedNotifyChannel := JsUndefined |}.

Definition set_notifier (n : NotifierObject) (e : Employee) : Employee :=
  {| notifier := n; selectedNotifyChannel := selectedNotifyChannel e |}.

Definition set_selectedNotifyChannel (v : JsValue) (e : Employee) : Employee :=
  {| notifier := notifier e; selectedNotifyChannel := v |}.

Inductive Event : Type :=
| sendNotification_called (employee : Employee)
| notify_called (n : NotifierObject).

(** [sendNotification() { this.notifier.notify(); }].  An employee carries
    its notifier, state included, so a run is that of the code for employees
    that share no notifier and for notifiers that keep no state; what is
    stated for other notifiers leaves their states aside ([call_of],
    [shown]). *)
Definition sendNotification : M Employee Event JsValue :=
  on_field notifier set_notifier
    (call notify_called (quiet NotifierObject_notify)) ;;
  ret JsUndefined.

Definition notifyAll : M (list Employee) Event JsValue :=
  forEach (call sendNotification_called sendNotification) ;; ret JsUndefined.

(** A notifier whose [notify] returns, whatever state the object is in. *)
Definition notify_returns (n : NotifierObject) : Prop :=
  forall self : notifier_class n,
    exists v, completion (@notify _ (notifier_implements n) self) = Normal v.

(** The employee as [sendNotification] leaves it. *)
Definition notified (e : Employee) : Employee :=
  final (sendNotification e).

(** A class outside the repository that implements [Notifier] as the interface
    lets it: its [notify] throws. *)
Record FailingNotifier : Type := new_FailingNotifier { }.

#[export] Instance FailingNotifier_Notifier : Notifier FailingNotifier :=
  {| notify := throw (mkError "notification failed") |}.

(** The calls that notifying one employee makes. *)
Definition calls_for (e : Employee) : list Event :=
  [sendNotification_called e; notify_called (notifier e)].

Definition email : NotifierObject :=
  mkNotifierObject EmailNotifier _ new_EmailNotifier.
Definition sms : NotifierObject :=
  mkNotifierObject SMSNotifier _ new_SMSNotifier.
Definition failing : NotifierObject :=
  mkNotifierObject FailingNotifier _ new_FailingNotifier.

(** Two employees with the repository's notifiers and channels of any kind. *)
Definition two_employees : list Employee :=
  [ set_selectedNotifyChannel (JsString "Fax") (new_Employee email);
    set_selectedNotifyChannel (JsNumber 7) (new_Employee sms) ].

(** A call with the employee it shows changed by [f]: the same method is
    called, and a call of [notify] shows no employee. *)
Definition on_employee (f : Employee -> Employee) (ev : Event) : Event :=
  match ev with
  | sendNotification_called e => sendNotification_called (f e)
  | notify_called n => notify_called n
  end.

(** A notifier whose [notify] leaves the object as it found it. *)
Definition keeps_no_state (n : NotifierObject) : Prop :=
  forall self : notifier_class n,
    final (@notify _ (notifier_implements n) self) = self.







End OCP_Good.

(* ================================================================== *)
(** ** Liskov substitution principle, "Bad" *)
(* ================================================================== *)

Module LSP_Bad.

(** [class Square extends Rectangle]: a [Square] is a [Rectangle] object whose
    class decides which [setWidth] and [setHeight] run. *)
Inductive Class : Type := Rectangle_class | Square_class.

Record Rectangle : Type := mkRectangle {
  class_of : Class;
  width : Z;
  height : Z
}.

(** [constructor() { this.width = 0; this.height = 0; }], which [Square]
    inherits. *)
Definition new_Rectangle : Rectangle :=
  {| class_of := Rectangle_class; width := 0; height := 0 |}.
Definition new_Square : Rectangle :=
  {| class_of := Square_class; width := 0; height := 0 |}.

Definition set_width (w : Z) (r : Rectangle) : Rectangle :=
  {| class_of := class_of r; width := w; height := height r |}.
Definition set_height (h : Z) (r : Rectangle) : Rectangle :=
  {| class_of := class_of r; width := width r; height := h |}.

Inductive Event : Type :=
| setWidth_called (w : Z) (rectangle : Rectangle)
| setHeight_called (h : Z) (rectangle : Rectangle)
| getArea_called (rectangle : Rectangle)
| render_called (area : JsValue) (rectangle : Rectangle).

Definition setColor (color : JsValue) : M Rectangle Event JsValue := empty_body.
Definition render (area : JsValue) : M Rectangle Event JsValue := empty_body.

Definition Rectangle_setWidth (w : Z) : M Rectangle Event JsValue :=
  assign (set_width w) ;; ret JsUndefined.
Definition Rectangle_setHeight (h : Z) : M Rectangle Event JsValue :=
  assign (set_height h) ;; ret JsUndefined.

(** [return this.width * this.height;].  The product of the two numbers is
    the product of the integers as long as sides and product are safe
    integers ([safe_product]); the statements about the value returned are
    made there. *)
Definition getArea : M Rectangle Event JsValue :=
  r <- this ;; ret (JsNumber (width r * height r)).

Definition Square_setWidth (w : Z) : M Rectangle Event JsValue :=
  assign (set_width w) ;; assign (set_height w) ;; ret JsUndefined.
Definition Square_setHeight (h : Z) : M Rectangle Event JsValue :=
  assign (set_width h) ;; assign (set_height h) ;; ret JsUndefined.

(** [rectangle.setWidth(w)] and [rectangle.setHeight(h)] as a caller sees
    them: the override of the object's class runs. *)
Definition setWidth (w : Z) : M Rectangle Event JsValue :=
  r <- this ;;
  match class_of r with
  | Rectangle_class => Rectangle_setWidth w
  | Square_class => Square_setWidth w
  end.
Definition setHeight (h : Z) : M Rectangle Event JsValue :=
  r <- this ;;
  match class_of r with
  | Rectangle_class => Rectangle_setHeight h
  | Square_class => Square_setHeight h
  end.

Definition renderLargeRectangles : M (list Rectangle) Event JsValue :=
  forEach
    (call (setWidth_called 4) (setWidth 4) ;;
     call (setHeight_called 5) (setHeight 5) ;;
     area <- call getArea_called getArea ;;
     call (render_called area) (render area)) ;;
  ret JsUndefined.

Definition rectangles : list Rectangle :=
  [new_Rectangle; new_Rectangle; new_Square].

(** The operations a [Square] offers, its own and the inherited ones. *)
Inductive Operation : Type :=
| do_setColor (color : JsValue)
| do_render (area : JsValue)
| do_setWidth (w : Z)
| do_setHeight (h : Z)
| do_getArea.

Definition perform (op : Operation) : M Rectangle Event JsValue :=
  match op with
  | do_setColor color => setColor color
  | do_render area => render area
  | do_setWidth w => setWidth w
  | do_setHeight h => setHeight h
  | do_getArea => getArea
  end.

(** The object after a sequence of operations, first to last. *)
Definition after (ops : list Operation) (r : Rectangle) : Rectangle :=
  fold_left (fun r op => final (perform op r)) ops r.

(** The areas that a run handed to [render], in order. *)
Fixpoint rendered_areas (evs : list Event) : list JsValue :=
  match evs with
  | [] => []
  | render_called area _ :: rest => area :: rendered_areas rest
  | _ :: rest => rendered_areas rest
  end.

(** What [renderLargeRectangles] makes of an object, and the area it then
    reads: a [Rectangle] becomes 4 by 5, a [Square] 5 by 5. *)
Definition enlarged (r : Rectangle) : Rectangle :=
  match class_of r with
  | Rectangle_class => mkRectangle Rectangle_class 4 5
  | Square_class => mkRectangle Square_class 5 5
  end.

Definition enlarged_area (r : Rectangle) : JsValue :=
  match class_of r with
  | Rectangle_class => JsNumber 20
  | Square_class => JsNumber 25
  end.

(** The argument of the last [setWidth] of a sequence of operations ([w0] when
    it has none), of the last [setHeight], and of the last setter of either
    kind. *)
Fixpoint last_width (ops : list Operation) (w0 : Z) : Z :=
  match ops with
  | [] => w0
  | do_setWidth w :: rest => last_width rest w
  | _ :: rest => last_width rest w0
  end.

Fixpoint last_height (ops : list Operation) (h0 : Z) : Z :=
  match ops with
  | [] => h0
  | do_setHeight h :: rest => last_height rest h
  | _ :: rest => last_height rest h0
  end.

Fixpoint last_side (ops : list Operation) (s0 : Z) : Z :=
  match ops with
  | [] => s0
  | do_setWidth w :: rest => last_side rest w
  | do_setHeight h :: rest => last_side rest h
  | _ :: rest => last_side rest s0
  end.

(** A call with its receiver changed by [f]: the same method is called with
    the same argument. *)
Definition on_rectangle (f : Rectangle -> Rectangle) (ev : Event) : Event :=
  match ev with
  | setWidth_called w r => setWidth_called w (f r)
  | setHeight_called h r => setHeight_called h (f r)
  | getArea_called r => getArea_called (f r)
  | render_called area r => render_called area (f r)
  end.

End LSP_Bad.

(* ================================================================== *)
(** ** Liskov substitution principle, "Good" *)
(* ================================================================== *)

Module LSP_Good.

Record Rectangle : Type := new_Rectangle { width : Z; height : Z }.
Record Square : Type := new_Square { length : Z }.

(** An object of a class that extends [Shape]. *)
Inductive Shape : Type :=
| a_Rectangle (r : Rectangle)
| a_Square (s : Square).

Inductive Event : Type :=
| getArea_called (shape : Shape)
| render_called (area : JsValue) (shape : Shape).

Definition setColor (color : JsValue) : M Shape Event JsValue := empty_body.
Definition render (area : JsValue) : M Shape Event JsValue := empty_body.

(** The two [getArea]: products of numbers, which are the products of the
    integers for shapes that are [safe_shape]. *)
Definition Rectangle_getArea : M Rectangle Event JsValue :=
  r <- this ;; ret (JsNumber (width r * height r)).
Definition Square_getArea : M Square Event JsValue :=
  s <- this ;; ret (JsNumber (length s * length s)).

(** [shape.getArea()] by the object's class. *)
Definition getArea : M Shape Event JsValue :=
  fun shape =>
    match shape with
    | a_Rectangle r =>
        match Rectangle_getArea r with
        | (ev, r', c) => (ev, a_Rectangle r', c)
        end
    | a_Square s =>
        match Square_getArea s with
        | (ev, s', c) => (ev, a_Square s', c)
        end
    end.

Definition renderLargeShapes : M (list Shape) Event JsValue :=
  forEach
    (area <- call getArea_called getArea ;;
     call (render_called area) (render area)) ;;
  ret JsUndefined.

Definition shapes : list Shape :=
  [a_Rectangle (new_Rectangle 4 5); a_Rectangle (new_Rectangle 4 5);
   a_Square (new_Square 5)].

(** The areas that a run handed to [render], in order. *)
Fixpoint rendered_areas (evs : list Event) : list JsValue :=
  match evs with
  | [] => []
  | render_called area _ :: rest => area :: rendered_areas rest
  | _ :: rest => rendered_areas rest
  end.

(** The area of a shape, by its class. *)
Definition area (shape : Shape) : Z :=
  match shape with
  | a_Rectangle r => width r * height r
  | a_Square s => length s * length s
  end.

(** A shape whose sides and area are safe integers, so that the product in
    [getArea] is the number the code returns. *)
Definition safe_shape (shape : Shape) : Prop :=
  match shape with
  | a_Rectangle r => safe_product (width r) (height r)
  | a_Square s => safe_product (length s) (length s)
  end.

End LSP_Good.

(* ================================================================== *)
(** ** Interface segregation principle *)
(* ================================================================== *)

Module ISP_Bad.

(** [interface Notifier { notify() attachFile() }]. *)
Class Notifier (T : Type) : Type := {
  notify : M T NoCall JsValue;
  attachFile : M T NoCall JsValue
}.

Record EmailNotifier : Type := new_EmailNotifier { }.
Record SMSNotifier : Type := new_SMSNotifier { }.

Definition EmailNotifier_notify : M EmailNotifier NoCall JsValue := empty_body.
Definition EmailNotifier_attachFile : M EmailNotifier NoCall JsValue := empty_body.

Definition SMSNotifier_notify : M SMSNotifier NoCall JsValue := empty_body.
Definition SMSNotifier_attachFile : M SMSNotifier NoCall JsValue :=
  throw (mkError "SMS doesn't support attaching files").

#[export] Instance EmailNotifier_Notifier : Notifier EmailNotifier :=
  {| notify := EmailNotifier_notify; attachFile := EmailNotifier_attachFile |}.
#[export] Instance SMSNotifier_Notifier : Notifier SMSNotifier :=
  {| notify := SMSNotifier_notify; attachFile := SMSNotifier_attachFile |}.

(** The calls a client of an [SMSNotifier] can make. *)
Inductive Request : Type := do_notify | do_attachFile.

Definition serve (q : Request) : M SMSNotifier NoCall JsValue :=
  match q with
  | do_notify => @notify SMSNotifier _
  | do_attachFile => @attachFile SMSNotifier _
  end.

(** The object after a history of calls, a caller having caught each throw. *)
Definition after (history : list Request) (n : SMSNotifier) : SMSNotifier :=
  fold_left (fun n q => final (serve q n)) history n.

End ISP_Bad.

Module ISP_Good.

Class Notifier (T : Type) : Type := { notify : M T NoCall JsValue }.
Class Attacher (T : Type) : Type := { attachFile : M T NoCall JsValue }.

Record EmailNotifier : Type := new_EmailNotifier { }.
Record SMSNotifier : Type := new_SMSNotifier { }.

Definition EmailNotifier_notify : M EmailNotifier NoCall JsValue := empty_body.
Definition EmailNotifier_attachFile : M EmailNotifier NoCall JsValue := empty_body.
Definition SMSNotifier_notify : M SMSNotifier NoCall JsValue := empty_body.

#[export] Instance EmailNotifier_Notifier : Notifier EmailNotifier :=
  {| notify := EmailNotifier_notify |}.
#[export] Instance EmailNotifier_Attacher : Attacher EmailNotifier :=
  {| attachFile := EmailNotifier_attachFile |}.
#[export] Instance SMSNotifier_Notifier : Notifier SMSNotifier :=
  {| notify := SMSNotifier_notify |}.

End ISP_Good.

(* ================================================================== *)
(** ** Dependency inversion principle *)
(* ================================================================== *)

Module DIP_Bad.

Record MySQLConnection : Type := new_MySQLConnection { }.

Definition connect : M MySQLConnection NoCall JsValue :=
  ret (JsString "Database connection").

Record AppInit : Type := mkAppInit { dbConnection : MySQLConnection }.

(** [constructor(dbConnection: MySQLConnection)]. *)
Definition new_AppInit (c : MySQLConnection) : AppInit :=
  {| dbConnection := c |}.

End DIP_Bad.

Module DIP_Good.

Class DBConnectionInterface (T : Type) : Type := {
  connect : M T NoCall JsValue
}.

Record MySQLConnection : Type := new_MySQLConnection { }.

Definition MySQLConnection_connect : M MySQLConnection NoCall JsValue :=
  ret (JsString "Database connection").

#[export] Instance MySQLConnection_DBConnectionInterface
  : DBConnectionInterface MySQLConnection :=
  {| connect := MySQLConnection_connect |}.

(** A value of type [DBConnectionInterface]. *)
Record DBConnectionObject : Type := mkDBConnectionObject {
  connection_class : Type;
  connection_implements : DBConnectionInterface connection_class;
  connection_self : connection_class
}.

Record AppInit : Type := mkAppInit { dbConnection : DBConnectionObject }.

(** [constructor(dbConnection: DBConnectionInterface)]. *)
Definition new_AppInit (c : DBConnectionObject) : AppInit :=
  {| dbConnection := c |}.

End DIP_Good.

(* ================================================================== *)
(** ** The methods of the repository *)
(* ================================================================== *)

Module Repository.

(** A method of a class of a snippet, with what it runs on.  Constructors are
    not methods and are not listed. *)
Record Method : Type := mkMethod {
  snippet : string;
  class_name : string;
  method_name : string;
  receiver : Type;
  arguments : Type;
  call_event : Type;
  body : arguments -> M receiver call_event JsValue
}.

(** A method without parameters. *)
Definition method0 {S E} (sn cl me : string) (b : M S E JsValue) : Method :=
  mkMethod sn cl me S unit E (fun _ => b).

(** A method with one parameter. *)
Definition method1 {S P E} (sn cl me : string) (b : P -> M S E JsValue) : Method :=
  mkMethod sn cl me S P E b.

Definition repository_methods : list Method :=
  [ method0 "SRP Bad" "Salary" "calculateSalary" SRP_Bad.calculateSalary;
    method0 "SRP Bad" "Salary" "printPaycheck" SRP_Bad.printPaycheck;
    method0 "SRP Bad" "Salary" "saveData" SRP_Bad.saveData;
    method0 "SRP Good" "SalaryCalculate" "calculate" SRP_Good.calculate;
    method0 "SRP Good" "SalaryPaycheck" "print" SRP_Good.print;
    method0 "SRP Good" "SalaryPersistence" "save" SRP_Good.save;
    method0 "OCP Bad" "Employee" "sendEmailNotification" OCP_Bad.sendEmailNotification;
    method0 "OCP Bad" "Employee" "sendSMSNotification" OCP_Bad.sendSMSNotification;
    method0 "OCP Bad" "NotifyManager" "notifyAll" OCP_Bad.notifyAll;
    method0 "OCP Good" "EmailNotifier" "notify" OCP_Good.EmailNotifier_notify;
    method0 "OCP Good" "SMSNotifier" "notify" OCP_Good.SMSNotifier_notify;
    method0 "OCP Good" "Employee" "sendNotification" OCP_Good.sendNotification;
    method0 "OCP Good" "NotifyManager" "notifyAll" OCP_Good.notifyAll;
    method1 "LSP Bad" "Rectangle" "setColor" LSP_Bad.setColor;
    method1 "LSP Bad" "Rectangle" "render" LSP_Bad.render;
    method1 "LSP Bad" "Rectangle" "setWidth" LSP_Bad.Rectangle_setWidth;
    method1 "LSP Bad" "Rectangle" "setHeight" LSP_Bad.Rectangle_setHeight;
    method0 "LSP Bad" "Rectangle" "getArea" LSP_Bad.getArea;
    method1 "LSP Bad" "Square" "setWidth" LSP_Bad.Square_setWidth;
    method1 "LSP Bad" "Square" "setHeight" LSP_Bad.Square_setHeight;
    method1 "LSP Good" "Shape" "setColor" LSP_Good.setColor;
    method1 "LSP Good" "Shape" "render" LSP_Good.render;
    method0 "LSP Good" "Rectangle" "getArea" LSP_Good.Rectangle_getArea;
    method0 "LSP Good" "Square" "getArea" LSP_Good.Square_getArea;
    method0 "ISP Bad" "EmailNotifier" "notify" ISP_Bad.EmailNotifier_notify;
    method0 "ISP Bad" "EmailNotifier" "attachFile" ISP_Bad.EmailNotifier_attachFile;
    method0 "ISP Bad" "SMSNotifier" "notify" ISP_Bad.SMSNotifier_notify;
    method0 "ISP Bad" "SMSNotifier" "attachFile" ISP_Bad.SMSNotifier_attachFile;
    method0 "ISP Good" "EmailNotifier" "notify" ISP_Good.EmailNotifier_notify;
    method0 "ISP Good" "EmailNotifier" "attachFile" ISP_Good.EmailNotifier_attachFile;
    method0 "ISP Good" "SMSNotifier" "notify" ISP_Good.SMSNotifier_notify;
    method0 "DIP Bad" "MySQLConnection" "connect" DIP_Bad.connect;
    method0 "DIP Good" "MySQLConnection" "connect" DIP_Good.MySQLConnection_connect ].

(** A placeholder: on every receiver and argument the method does what an
    empty body does. *)
Definition placeholder (m : Method) : Prop :=
  forall (args : arguments m) (self : receiver m),
    body m args self = empty_body self.

(** The methods whose body in the source is more than [// ...]. *)
Definition methods_with_a_body : list (string * string * string) :=
  [ ("OCP Bad", "NotifyManager", "notifyAll");
    ("OCP Good", "Employee", "sendNotification");
    ("OCP Good", "NotifyManager", "notifyAll");
    ("LSP Bad", "Rectangle", "setWidth");
    ("LSP Bad", "Rectangle", "setHeight");
    ("LSP Bad", "Rectangle", "getArea");
    ("LSP Bad", "Square", "setWidth");
    ("LSP Bad", "Square", "setHeight");
    ("LSP Good", "Rectangle", "getArea");
    ("LSP Good", "Square", "getArea");
    ("ISP Bad", "SMSNotifier", "attachFile");
    ("DIP Bad", "MySQLConnection", "connect");
    ("DIP Good", "MySQLConnection", "connect") ].

Definition same_method (m : Method) (k : string * string * string) : bool :=
  match k with
  | (sn, cl, me) =>
      String.eqb (snippet m) sn && String.eqb (class_name m) cl
      && String.eqb (method_name m) me
  end.

Definition has_a_body (m : Method) : bool :=
  existsb (same_method m) methods_with_a_body.

End Repository.

(* ================================================================== *)
(** ** What a method does with a field *)
(* ================================================================== *)

Module FieldUse.

Section Field.
Context {S F E A : Type} (get : S -> F) (set : F -> S -> S).

(** [relabel f ev] is the call [ev] with the receiver it shows changed by
    [f]; each snippet has its own ([on_employee], [on_rectangle]). *)
Context (relabel : (S -> S) -> E -> E).

(** Two receivers that differ at most in the field. *)
Definition same_but (x y : S) : Prop := exists v, y = set v x.

(** Two calls that differ at most in the field of the receiver they show:
    the same method, with the same arguments. *)
Definition same_call (a b : E) : Prop := exists v, b = relabel (set v) a.

(** The method leaves the field as it found it. *)
Definition never_assigns (m : M S E A) : Prop :=
  forall s, get (final (m s)) = get s.

(** Nothing the method does depends on the field: the calls it makes, how it
    completes and what it leaves in the other fields are the same whatever the
    field holds. *)
Definition never_reads (m : M S E A) : Prop :=
  forall x y, same_but x y ->
    Forall2 same_call (events (m x)) (events (m y))
    /\ completion (m x) = completion (m y)
    /\ same_but (final (m x)) (final (m y)).

(** The same for a function over an array of such objects. *)
Definition never_assigns_in_elements (m : M (list S) E A) : Prop :=
  forall xs, map get (final (m xs)) = map get xs.

Definition never_reads_in_elements (m : M (list S) E A) : Prop :=
  forall xs ys, Forall2 same_but xs ys ->
    Forall2 same_call (events (m xs)) (events (m ys))
    /\ completion (m xs) = completion (m ys)
    /\ Forall2 same_but (final (m xs)) (final (m ys)).

End Field.

End FieldUse.

(* ================================================================== *)
(** ** The texts: snippet files and README sections *)
(* ================================================================== *)

Module Docs.

(** What "the fenced code blocks embedded in the README" are: the fenced
    [typescript] blocks of a markdown text, in order, each without its fences.
    A line that is [```typescript] opens a block and a line that is [```]
    closes it.  [open] is the block being read, last line first. *)
Fixpoint fenced_blocks_from (open : option (list string)) (lines : list string)
  : list (list string) :=
  match lines with
  | [] => []
  | l :: rest =>
      match open with
      | None =>
          if String.eqb l "```typescript"
          then fenced_blocks_from (Some []) rest
          else fenced_blocks_from None rest
      | Some acc =>
          if String.eqb l "```"
          then rev acc :: fenced_blocks_from None rest
          else fenced_blocks_from (Some (l :: acc)) rest
      end
  end.

Definition fenced_blocks (lines : list string) : list (list string) :=
  fenced_blocks_from None lines.

(** Blocks put one after the other with a blank line between them. *)
Fixpoint separated (blocks : list (list string)) : list string :=
  match blocks with
  | [] => []
  | [b] => b
  | b :: rest => b ++ "" :: separated rest
  end.

(** How a snippet file lays out the blocks of a README section: a comment
    line naming the side, then the blocks. *)
Definition laid_out (comment : string) (blocks : list (list string))
  : list string :=
  comment :: separated blocks.

Fixpoint drop (n : nat) (s : string) : string :=
  match n, s with
  | O, _ => s
  | S n', String _ s' => drop n' s'
  | S _, EmptyString => EmptyString
  end.

(** [s] without the first occurrence of [pat], if it has one. *)
Fixpoint erase_first (pat s : string) : string :=
  match s with
  | EmptyString => EmptyString
  | String c s' =>
      if prefix pat s then drop (String.length pat) s
      else String c (erase_first pat s')
  end.

(** The file [src/OpenClosedPrinciple-Good.ts]. *)
Definition OpenClosedPrinciple_Good_ts : list string :=
  [
   "// Good";
   "interface Notifier {";
   "    notify();";
   "}";
   "";
   "class EmailNotifier {";
   "    notify() {";
   "        // ...";
   "    }";
   "}";
   "";
   "class SMSNotifier {";
   "    notify() {";
   "        // ...";
   "    }";
   "}";
   "";
   "class Employee {";
   "    private notifier;";
   "    public selectedNotifyChannel;";
   "";
   "    // By EmployeeEntity class we will read employee preferences from DB and will";
   "    // initialize Employee with proper notifier regarding selectedNotifyChannel";
   "    constructor(notifier: Notifier) {";
   "        this.notifier = notifier;";
   "    }";
   "";
   "    sendNotification() {";
   "        this.notifier.notify();";
   "    }";
   "}";
   "";
   "class NotifyManager {";
   "    notifyAll(employees: Employee[]) {";
   "        for (const employee of employees) {";
   "            employee.sendNotification();";
   "        }";
   "    }";
   "}"
  ].

(** The snippet file of the single responsibility principle ([src/unnamed/part_000]). *)
Definition SRP_ts : list string :=
  [
   "// Bad";
   "class Salary {";
   "";
   "    calculateSalary(){";
   "        // ...";
   "    }";
   "";
   "    printPaycheck(){";
   "        // ...";
   "    }";
   "";
   "    saveData(){";
   "        // ...";
   "    }";
   "}";
   "";
   "// Good";
   "class SalaryCalculate {";
   "    calculate(){";
   "        // ...";
   "    }";
   "}";
   "";
   "class SalaryPaycheck {";
   "    print(){";
   "        // ...";
   "    }";
   "}";
   "";
   "class SalaryPersistence {";
   "    save(){";
   "        // ...";
   "    }";
   "}"
  ].

(** The snippet file of the open/closed principle, Bad ([src/unnamed/part_001]). *)
Definition OCP_Bad_ts : list string :=
  [
   "// Bad";
   "class Employee {";
   "    public selectedNotifyChannel;";
   "";
   "    public sendEmailNotification() {";
   "        // ...";
   "    }";
   "";
   "    public sendSMSNotification() {";
   "        // ...";
   "    }";
   "}";
   "";
   "class NotifyManager {";
   "    notifyAll(employees: Employee[]) {";
   "        for (const employee of employees) {";
   "            switch (employee.selectedNotifyChannel) {";
   "                case 'SMS':";
   "                    employee.sendSMSNotification();";
   "                    break;";
   "                case 'Email':";
   "                    employee.sendEmailNotification();";
   "                    break;";
   "                default:";
   "                    throw new Error('Unknown Channel');";
   "            }";
   "        }";
   "    }";
   "}"
  ].

(** Lines 22 to 42 of [src/README.md]: the section of the SRP Bad example. *)
Definition README_SRP_Bad : list string :=
  [
   "### Bad:";
   "```typescript";
   "class Salary {";
   "    calculateSalary(){";
   "        // ...";
   "    }";
   "";
   "    printPaycheck(){";
   "        // ...";
   "    }";
   "";
   "    saveData(){";
   "        // ...";
   "    }";
   "}";
   "```";
   "Above example violates SRP because you have more than one reason to change this class, here is some of them:";
   "* if you need to change calculate salary formula";
   "* if you need to change print paycheck format";
   "* if you need to change the way of saving data. For example in the first version of your app you save data in a file and for the second version you decide to save in a db";
   ""
  ].

(** Lines 43 to 70 of [src/README.md]: the section of the SRP Good example. *)
Definition README_SRP_Good : list string :=
  [
   "### Good:";
   "```typescript";
   "class SalaryCalculate {";
   "    calculate(){";
   "        // ...";
   "    }";
   "}";
   "```";
   "";
   "```typescript";
   "class SalaryPaycheck {";
   "    print(){";
   "        // ...";
   "    }";
   "}";
   "```";
   "";
   "```typescript";
   "class SalaryPersistence {";
   "    save(){";
   "        // ...";
   "    }";
   "}";
   "```";
   "";
   "";
   "However, make sure to not oversimplify your code. Some developers take the single responsibility principle to the extreme by creating classes with just one function. Later, when they want to write some actual code, they have to inject many dependencies which makes the code very unreadable and confusing.";
   ""
  ].

(** Lines 86 to 123 of [src/README.md]: the section of the OCP Bad example. *)
Definition README_OCP_Bad : list string :=
  [
   "### Bad:";
   "```typescript";
   "class Employee {";
   "    selectedNotifyChannel: string;";
   "";
   "    sendEmailNotification() {";
   "        // ...";
   "    }";
   "";
   "    sendSMSNotification() {";
   "        // ...";
   "    }";
   "}";
   "```";
   "";
   "```typescript";
   "class NotifyManager {";
   "    notifyAll(employees: Employee[]) {";
   "        for (const employee of employees) {";
   "            switch (employee.selectedNotifyChannel) {";
   "                case 'SMS':";
   "                    employee.sendSMSNotification();";
   "                    break;";
   "                case 'Email':";
   "                    employee.sendEmailNotification();";
   "                    break;";
   "                default:";
   "                    throw new Error('Unknown Channel');";
   "            }";
   "        }";
   "    }";
   "}";
   "```";
   "";
   "This implementation violates OCP. Because if you decide to add a new notification channel, for example ";
   "notify by WhatsApp, you should modify both classes. First you should add ```sendWhatsAppNotification()``` method to the ```Employee``` class and";
   "then you should add a new case to the switch case in ```NotifyManager``` class.";
   ""
  ].

(** Lines 124 to 170 of [src/README.md]: the section of the OCP Good example. *)
Definition README_OCP_Good : list string :=
  [
   "### Good:";
   "```typescript";
   "interface Notifier {";
   "    notify();";
   "}";
   "";
   "class EmailNotifier implements Notifier {";
   "    notify() {";
   "        // ...";
   "    }";
   "}";
   "";
   "class SMSNotifier implements Notifier {";
   "    notify() {";
   "        // ...";
   "    }";
   "}";
   "```";
   "";
   "```typescript";
   "class Employee {";
   "    private notifier;";
   "    public selectedNotifyChannel;";
   "";
   "    // By EmployeeEntity class we will read employee preferences from DB and will";
   "    // initialize Employee with proper notifier regarding selectedNotifyChannel";
   "    constructor(notifier: Notifier) {";
   "        this.notifier = notifier;";
   "    }";
   "";
   "    sendNotification() {";
   "        this.notifier.notify();";
   "    }";
   "}";
   "```";
   "";
   "```typescript";
   "class NotifyManager {";
   "    notifyAll(employees: Employee[]) {";
   "        for (const employee of employees) {";
   "            employee.sendNotification();";
   "        }";
   "    }";
   "}";
   "```";
   "With this implementation you just need to add ```WhatsAppNotifier``` class without modifying ```Employee``` and ```NotifyManager``` classes.";
   ""
  ].

(** Lines 22 to 43 of the README copy [src/unnamed/part_002]: the section of the SRP Bad example. *)
Definition README_copy_SRP_Bad : list string :=
  [
   "### Bad:";
   "```typescript";
   "class Salary {";
   "";
   "    calculateSalary(){";
   "        // ...";
   "    }";
   "";
   "    printPaycheck(){";
   "        // ...";
   "    }";
   "";
   "    saveData(){";
   "        // ...";
   "    }";
   "}";
   "```";
   "Above example violates SRP because you have more than one reason to change this class, here is some of them:";
   "* if you need to change calculate salary formula";
   "* if you need to change print paycheck format";
   "* if you need to change the way of saving data. For example in the first version of your app you save data in a file and for the second version you decide to save in a db";
   ""
  ].

(** Lines 44 to 71 of the README copy [src/unnamed/part_002]: the section of the SRP Good example. *)
Definition README_copy_SRP_Good : list string :=
  [
   "### Good:";
   "```typescript";
   "class SalaryCalculate {";
   "    calculate(){";
   "        // ...";
   "    }";
   "}";
   "```";
   "";
   "```typescript";
   "class SalaryPaycheck {";
   "    print(){";
   "        // ...";
   "    }";
   "}";
   "```";
   "";
   "```typescript";
   "class SalaryPersistence {";
   "    save(){";
   "        // ...";
   "    }";
   "}";
   "```";
   "";
   "";
   "However, make sure to not oversimplify your code. Some developers take the single responsibility principle to the extreme by creating classes with just one function. Later, when they want to write some actual code, they have to inject many dependencies which makes the code very unreadable and confusing.";
   ""
  ].

(** Lines 87 to 124 of the README copy [src/unnamed/part_002]: the section of the OCP Bad example. *)
Definition README_copy_OCP_Bad : list string :=
  [
   "### Bad:";
   "```typescript";
   "class Employee {";
   "    public selectedNotifyChannel;";
   "";
   "    public sendEmailNotification() {";
   "        // ...";
   "    }";
   "";
   "    public sendSMSNotification() {";
   "        // ...";
   "    }";
   "}";
   "```";
   "";
   "```typescript";
   "class NotifyManager {";
   "    notifyAll(employees: Employee[]) {";
   "        for (const employee of employees) {";
   "            switch (employee.selectedNotifyChannel) {";
   "                case 'SMS':";
   "                    employee.sendSMSNotification();";
   "                    break;";
   "                case 'Email':";
   "                    employee.sendEmailNotification();";
   "                    break;";
   "                default:";
   "                    throw new Error('Unknown Channel');";
   "            }";
   "        }";
   "    }";
   "}";
   "```";
   "";
   "This implementation violates OCP. Because if you decide to add a new notification channel, for example ";
   "notify by WhatsApp, you should modify both classes. First you should add ```sendWhatsAppNotification()``` method to the ```Employee``` class and";
   "then you should add a new case to the switch case in ```NotifyManager``` class.";
   ""
  ].

(** Lines 125 to 170 of the README copy [src/unnamed/part_002]: the section of the OCP Good example. *)
Definition README_copy_OCP_Good : list string :=
  [
   "### Good:";
   "```typescript";
   "interface Notifier {";
   "    notify();";
   "}";
   "";
   "class EmailNotifier implements Notifier {";
   "    notify() {";
   "        // ...";
   "    }";
   "}";
   "";
   "class SMSNotifier implements Notifier {";
   "    notify() {";
   "        // ...";
   "    }";
   "}";
   "```";
   "";
   "```typescript";
   "class Employee {";
   "    private notifier;";
   "    public selectedNotifyChannel;";
   "";
   "    // By EmployeeEntity class we will read employee preferences from DB and will";
   "    // initialize Employee with proper notifier regarding selectedNotifyChannel";
   "    constructor(notifier: Notifier) {";
   "        this.notifier = notifier;";
   "    }";
   "";
   "    sendNotification() {";
   "        this.notifier.notify();";
   "    }";
   "}";
   "```";
   "";
   "```typescript";
   "class NotifyManager {";
   "    notifyAll(employees: Employee[]) {";
   "        for (const employee of employees) {";
   "            employee.sendNotification();";
   "        }";
   "    }";
   "}";
   "```";
   "With this implementation you just need to add ```WhatsAppNotifier``` class without modifying ```Employee``` and ```NotifyManager``` classes."
  ].

End Docs.

(* ================================================================== *)
(** ** Proof steps that recur *)
(* ================================================================== *)

(** A method is shown to be a placeholder by running its body, and shown not
    to be one by a receiver and an argument on which it differs from the
    empty body. *)
Ltac is_placeholder :=
  split; [intros _; reflexivity | intros _ ? ?; reflexivity].

Ltac has_body_at args self :=
  split;
  [ let H := fresh "H" in
    intros H; specialize (H args self); vm_compute in H; discriminate H
  | let H := fresh "H" in
    intros H; vm_compute in H; discriminate H ].

Ltac placeholder_or_not :=
  first
    [ is_placeholder
    | has_body_at tt [OCP_Bad.new_Employee]
    | has_body_at tt (OCP_Good.new_Employee OCP_Good.email)
    | has_body_at tt [OCP_Good.new_Employee OCP_Good.email]
    | has_body_at 1%Z LSP_Bad.new_Rectangle
    | has_body_at tt LSP_Bad.new_Rectangle
    | has_body_at tt (LSP_Good.new_Rectangle 4 5)
    | has_body_at tt (LSP_Good.new_Square 5)
    | has_body_at tt ISP_Bad.new_SMSNotifier
    | has_body_at tt DIP_Bad.new_MySQLConnection
    | has_body_at tt DIP_Good.new_MySQLConnection ].

(** Two texts differ when they differ at some line. *)
Ltac differ_at_line n H :=
  apply (f_equal (fun l => nth_error l n)) in H; vm_compute in H; discriminate H.


(* ================================================================== *)
(** * Properties *)
(* ================================================================== *)

(** ** Loops and strict equality *)

Section Loops.
Context {S E A : Type} (body : M S E A).

Lemma forEach_cons_normal (x : S) (rest : list S) (v : A) :
  completion (body x) = Normal v ->
  forEach body (x :: rest) =
    (events (body x) ++ events (forEach body rest),
     final (body x) :: final (forEach body rest),
     completion (forEach body rest)).
Proof.
  unfold completion, events, final. simpl.
  destruct (body x) as [[ev x'] c]. simpl. intros ->.
  now destruct (forEach body rest) as [[ev' rest'] c'].
Qed.

Lemma forEach_cons_throw (x : S) (rest : list S) (e : Error) :
  completion (body x) = Throw e ->
  forEach body (x :: rest) = (events (body x), final (body x) :: rest, Throw e).
Proof.
  unfold completion, events, final. simpl.
  destruct (body x) as [[ev x'] c]. simpl. now intros ->.
Qed.

(** A loop whose body returns on every element runs the body on each, in
    order, and returns. *)
Lemma forEach_all_normal (xs : list S) :
  Forall (fun x => exists v, completion (body x) = Normal v) xs ->
  forEach body xs =
    (flat_map (fun x => events (body x)) xs,
     map (fun x => final (body x)) xs,
     Normal tt).
Proof.
  induction 1 as [|x rest [v Hx] _ IH]; [reflexivity|].
  rewrite (forEach_cons_normal x rest v Hx), IH. reflexivity.
Qed.

(** A loop throws what its body throws on some element. *)
Lemma forEach_throw_inv (xs : list S) (e : Error) :
  completion (forEach body xs) = Throw e ->
  Exists (fun x => completion (body x) = Throw e) xs.
Proof.
  induction xs as [|x rest IH]; [discriminate|].
  destruct (completion (body x)) as [v|e'] eqn:Hx.
  - rewrite (forEach_cons_normal x rest v Hx). intros H.
    apply Exists_cons_tl, IH, H.
  - rewrite (forEach_cons_throw x rest e' Hx). intros [= <-].
    now apply Exists_cons_hd.
Qed.

End Loops.

Lemma strict_equals_string (v : JsValue) (s : string) :
  strict_equals v (JsString s) = true <-> v = JsString s.
Proof.
  destruct v; simpl; try (split; [discriminate | intros [=]]).
  rewrite String.eqb_eq. split; [now intros -> | now intros [= ->]].
Qed.

(** Running the rest of a method after a loop. *)
Lemma then_return_undefined {S E : Type} (m : M S E unit) (s : S) :
  (m ;; ret JsUndefined) s =
    (events (m s), final (m s),
     match completion (m s) with
     | Normal _ => Normal JsUndefined
     | Throw e => Throw e
     end).
Proof.
  unfold bind, ret, events, final, completion.
  destruct (m s) as [[ev s'] [v|e]]; simpl; [|reflexivity].
  now rewrite app_nil_r.
Qed.

(* ------------------------------------------------------------------ *)
(** ** Open/closed principle, "Bad": the unknown channel *)
(* ------------------------------------------------------------------ *)

Module OCP_Bad_Facts.
Import OCP_Bad.

Lemma known_channel_dec (e : Employee) : {known_channel e} + {~ known_channel e}.
Proof.
  unfold known_channel.
  destruct (strict_equals (selectedNotifyChannel e) (JsString "SMS")) eqn:Hs.
  - left. left. now apply strict_equals_string.
  - destruct (strict_equals (selectedNotifyChannel e) (JsString "Email")) eqn:He.
    + left. right. now apply strict_equals_string.
    + right. intros [H|H]; apply strict_equals_string in H; congruence.
Qed.

(** One turn of the loop on an employee whose channel has a case. *)
Lemma notifyAll_body_known (e : Employee) :
  known_channel e ->
  notifyAll_body e = ([matching_send e], e, Normal JsUndefined).
Proof.
  intros H. unfold notifyAll_body, matching_send, bind, this, call.
  destruct (strict_equals (selectedNotifyChannel e) (JsString "SMS")) eqn:Hs.
  - reflexivity.
  - destruct H as [H|H]; apply strict_equals_string in H; [congruence|].
    rewrite H. reflexivity.
Qed.

(** One turn of the loop on any other employee. *)
Lemma notifyAll_body_unknown (e : Employee) :
  ~ known_channel e ->
  notifyAll_body e = ([], e, Throw (mkError "Unknown Channel")).
Proof.
  intros H. unfold notifyAll_body, bind, this.
  destruct (strict_equals (selectedNotifyChannel e) (JsString "SMS")) eqn:Hs.
  - exfalso. apply H. left. now apply strict_equals_string.
  - destruct (strict_equals (selectedNotifyChannel e) (JsString "Email")) eqn:He.
    + exfalso. apply H. right. now apply strict_equals_string.
    + reflexivity.
Qed.

Lemma notifyAll_all_known (employees : list Employee) :
  Forall known_channel employees ->
  notifyAll employees = (map matching_send employees, employees, Normal JsUndefined).
Proof.
  intros H. unfold notifyAll. rewrite then_return_undefined.
  rewrite forEach_all_normal.
  - unfold events, final, completion. simpl. f_equal. f_equal.
    + induction H as [|e rest He _ IH]; [reflexivity|].
      simpl. rewrite (notifyAll_body_known e He), IH. reflexivity.
    + induction H as [|e rest He _ IH]; [reflexivity|].
      simpl. rewrite (notifyAll_body_known e He). simpl. now f_equal.
  - eapply Forall_impl; [|exact H]. intros e He.
    rewrite (notifyAll_body_known e He). now exists JsUndefined.
Qed.

Lemma notifyAll_some_unknown (employees : list Employee) :
  Exists (fun e => ~ known_channel e) employees ->
  completion (notifyAll employees) = Throw (mkError "Unknown Channel").
Proof.
  unfold notifyAll. rewrite then_return_undefined. unfold completion at 1. simpl.
  induction employees as [|e rest IH]; intros H; [inversion H|].
  destruct (known_channel_dec e) as [Hk|Hk].
  - rewrite (forEach_cons_normal _ e rest JsUndefined)
      by now rewrite (notifyAll_body_known e Hk).
    unfold completion at 1. simpl. apply IH.
    inversion H; subst; [contradiction|assumption].
  - rewrite (forEach_cons_throw _ e rest (mkError "Unknown Channel"))
      by now rewrite (notifyAll_body_unknown e Hk).
    reflexivity.
Qed.

Lemma notifyAll_throws_unknown_channel_only (employees : list Employee) (err : Error) :
  completion (notifyAll employees) = Throw err ->
  err = mkError "Unknown Channel"
  /\ Exists (fun e => ~ known_channel e) employees.
Proof.
  unfold notifyAll. rewrite then_return_undefined. unfold completion at 1. simpl.
  destruct (completion (forEach notifyAll_body employees)) as [v|e'] eqn:Hc;
    [discriminate|].
  intros [= ->]. apply forEach_throw_inv in Hc.
  apply Exists_exists in Hc. destruct Hc as [e [Hin He]].
  destruct (known_channel_dec e) as [Hk|Hk].
  - rewrite (notifyAll_body_known e Hk) in He. discriminate.
  - rewrite (notifyAll_body_unknown e Hk) in He. injection He as <-.
    split; [reflexivity|]. apply Exists_exists. now exists e.
Qed.

(** The loop on three employees: the second has no case, so the first is
    notified by SMS and the third is never reached. *)
Example notifyAll_sms_fax_email :
  notifyAll [mkEmployee (JsString "SMS"); mkEmployee (JsString "Fax");
             mkEmployee (JsString "Email")]
  = ([sendSMSNotification_called (mkEmployee (JsString "SMS"))],
     [mkEmployee (JsString "SMS"); mkEmployee (JsString "Fax");
      mkEmployee (JsString "Email")],
     Throw (mkError "Unknown Channel")).
Proof. reflexivity. Qed.

(** A channel that was never set is unknown too, and so is 'sms'. *)
Example notifyAll_unset_channel :
  completion (notifyAll [new_Employee]) = Throw (mkError "Unknown Channel")
  /\ completion (notifyAll [mkEmployee (JsString "sms")])
     = Throw (mkError "Unknown Channel").
Proof. split; reflexivity. Qed.

Example notifyAll_email_sms :
  notifyAll [mkEmployee (JsString "Email"); mkEmployee (JsString "SMS")]
  = ([sendEmailNotification_called (mkEmployee (JsString "Email"));
      sendSMSNotification_called (mkEmployee (JsString "SMS"))],
     [mkEmployee (JsString "Email"); mkEmployee (JsString "SMS")],
     Normal JsUndefined).
Proof. reflexivity. Qed.

(** C3.  In the OCP "Bad" example [notifyAll(employees)] throws an [Error]
    with message 'Unknown Channel' exactly when some employee's
    [selectedNotifyChannel] is neither 'SMS' nor 'Email', and it throws
    nothing else; when every channel is 'SMS' or 'Email', each employee gets
    the call of the matching send method, in list order, and [notifyAll]
    returns. *)
Theorem notifyAll_throws_iff_unknown_channel (employees : list Employee) :
  (completion (notifyAll employees) = Throw (mkError "Unknown Channel")
   <-> Exists (fun e => ~ known_channel e) employees)
  /\ (forall err, completion (notifyAll employees) = Throw err ->
        message err = "Unknown Channel")
  /\ (Forall known_channel employees ->
        notifyAll employees
        = (map matching_send employees, employees, Normal JsUndefined)).
Proof.
  split; [split|split].
  - intros H. now apply notifyAll_throws_unknown_channel_only in H.
  - apply notifyAll_some_unknown.
  - intros err H. apply notifyAll_throws_unknown_channel_only in H. now destruct H as [-> _].
  - apply notifyAll_all_known.
Qed.

End OCP_Bad_Facts.

(* ------------------------------------------------------------------ *)
(** ** Open/closed principle, "Good": one notification per employee *)
(* ------------------------------------------------------------------ *)

Module OCP_Good_Facts.
Import OCP_Good.

(** [sendNotification] is the call of the notifier's [notify]: it makes that
    one call, keeps the notifier as [notify] left it, throws what [notify]
    throws and returns nothing of its own. *)
Lemma sendNotification_delegates (e : Employee) :
  sendNotification e =
    ([notify_called (notifier e)],
     set_notifier (final (NotifierObject_notify (notifier e))) e,
     match completion (NotifierObject_notify (notifier e)) with
     | Normal _ => Normal JsUndefined
     | Throw err => Throw err
     end).
Proof.
  unfold sendNotification, bind, on_field, call, quiet, ret, final, completion.
  destruct (NotifierObject_notify (notifier e)) as [[ev n'] [v|err]]; reflexivity.
Qed.

Lemma NotifierObject_notify_completion (n : NotifierObject) :
  completion (NotifierObject_notify n)
  = completion (@notify _ (notifier_implements n) (notifier_self n)).
Proof.
  unfold NotifierObject_notify, completion.
  now destruct (notify (notifier_self n)) as [[ev self'] c].
Qed.

Lemma sendNotification_returns (e : Employee) :
  notify_returns (notifier e) ->
  completion (sendNotification e) = Normal JsUndefined.
Proof.
  intros H. rewrite sendNotification_delegates. unfold completion at 1. simpl.
  rewrite NotifierObject_notify_completion.
  destruct (H (notifier_self (notifier e))) as [v ->]. reflexivity.
Qed.

(** The two notifiers of the repository return. *)
Lemma EmailNotifier_returns (self : EmailNotifier) :
  notify_returns (mkNotifierObject EmailNotifier _ self).
Proof. intros s. now exists JsUndefined. Qed.

Lemma SMSNotifier_returns (self : SMSNotifier) :
  notify_returns (mkNotifierObject SMSNotifier _ self).
Proof. intros s. now exists JsUndefined. Qed.

(** The field [selectedNotifyChannel] is out of the picture: [notifyAll]
    leaves it alone. *)
Lemma sendNotification_keeps_channel (e : Employee) :
  selectedNotifyChannel (final (sendNotification e)) = selectedNotifyChannel e.
Proof. rewrite sendNotification_delegates. reflexivity. Qed.








(** For notifiers that keep no state, [notifyAll] throws only what the
    [notify()] of some employee's notifier throws. *)
Lemma notifyAll_throws_what_notify_threw (employees : list Employee) (err : Error) :
  Forall (fun e => keeps_no_state (notifier e)) employees ->
  completion (notifyAll employees) = Throw err ->
  Exists (fun e => completion (NotifierObject_notify (notifier e)) = Throw err)
    employees.
Proof.
  intros _.
  unfold notifyAll. rewrite then_return_undefined. unfold completion at 1. simpl.
  destruct (completion (forEach _ employees)) as [v|e'] eqn:Hc; [discriminate|].
  intros [= ->]. apply forEach_throw_inv in Hc.
  eapply Exists_impl; [|exact Hc]. intros e He. simpl in He.
  unfold call in He. rewrite sendNotification_delegates in He.
  unfold completion in He at 1. simpl in He.
  destruct (completion (NotifierObject_notify (notifier e))); congruence.
Qed.

Lemma notifyAll_throws_what_notify_threw_witness :
  Forall (fun e => keeps_no_state (notifier e))
    [new_Employee failing; new_Employee email]
  /\ completion (notifyAll [new_Employee failing; new_Employee email])
     = Throw (mkError "notification failed")
  /\ Exists
       (fun e => completion (NotifierObject_notify (notifier e))
                 = Throw (mkError "notification failed"))
       [new_Employee failing; new_Employee email].
Proof.
  assert (H : Forall (fun e => keeps_no_state (notifier e))
                [new_Employee failing; new_Employee email]).
  { repeat constructor; intros self; reflexivity. }
  split; [exact H|]. split; [reflexivity|].
  apply (notifyAll_throws_what_notify_threw
           [new_Employee failing; new_Employee email]
           (mkError "notification failed") H).
  reflexivity.
Defined.

End OCP_Good_Facts.

(* ------------------------------------------------------------------ *)
(** ** Liskov substitution principle, "Bad": the square that is no rectangle *)
(* ------------------------------------------------------------------ *)

Module LSP_Bad_Facts.
Import LSP_Bad.

(** C5.  In the LSP "Bad" example [setWidth(4)], [setHeight(5)], [getArea()]
    on a fresh [Square] returns 25 and on a fresh [Rectangle] returns 20;
    [getArea] returns [width * height], here for sides and a product that are
    safe integers, where the product of the numbers is that of the integers. *)
Theorem square_area_25_rectangle_area_20 :
  completion ((setWidth 4 ;; setHeight 5 ;; getArea) new_Square)
    = Normal (JsNumber 25)
  /\ completion ((setWidth 4 ;; setHeight 5 ;; getArea) new_Rectangle)
    = Normal (JsNumber 20)
  /\ forall r, safe_product (width r) (height r) ->
       completion (getArea r) = Normal (JsNumber (width r * height r)).
Proof. split; [reflexivity|]. split; [reflexivity|]. intros r _. reflexivity. Qed.

(** The README's own run: [render] is handed 20, 20 and, for the square, 25. *)
Lemma renderLargeRectangles_areas :
  rendered_areas (events (renderLargeRectangles rectangles))
  = [JsNumber 20; JsNumber 20; JsNumber 25].
Proof. reflexivity. Qed.

(** A square stays a square. *)
Lemma perform_keeps_class (op : Operation) (r : Rectangle) :
  class_of (final (perform op r)) = class_of r.
Proof. destruct r as [[] rw rh]; destruct op; reflexivity. Qed.

(** Each operation, run on a square with equal sides, leaves the sides
    equal. *)
Lemma perform_keeps_sides_equal (op : Operation) (r : Rectangle) :
  class_of r = Square_class ->
  width r = height r ->
  width (final (perform op r)) = height (final (perform op r)).
Proof.
  destruct r as [c w h]. simpl. intros -> ->. destruct op; reflexivity.
Qed.

Lemma after_keeps_square (ops : list Operation) (r : Rectangle) :
  class_of r = Square_class ->
  width r = height r ->
  class_of (after ops r) = Square_class
  /\ width (after ops r) = height (after ops r).
Proof.
  unfold after. revert r.
  induction ops as [|op ops IH]; intros r Hc Hw; [now split|].
  simpl. apply IH.
  - now rewrite perform_keeps_class.
  - now apply perform_keeps_sides_equal.
Qed.

(** C6.  In the LSP "Bad" example every [Square] has [width] equal to
    [height]: both are 0 after construction, every operation of a [Square]
    keeps them equal, and so does every sequence of operations, [setWidth]
    and [setHeight] among them. *)
Theorem square_width_equals_height :
  (width new_Square = 0%Z /\ height new_Square = 0%Z)
  /\ (forall op r, class_of r = Square_class -> width r = height r ->
        width (final (perform op r)) = height (final (perform op r)))
  /\ (forall ops, width (after ops new_Square) = height (after ops new_Square)).
Proof.
  split; [now split|]. split.
  - intros op r. apply perform_keeps_sides_equal.
  - intros ops. now apply after_keeps_square.
Qed.

(** A [Rectangle] has no such invariant, which is what the caller relies on. *)
Lemma rectangle_sides_are_independent :
  after [do_setWidth 4; do_setHeight 5] new_Rectangle
  = {| class_of := Rectangle_class; width := 4; height := 5 |}.
Proof. reflexivity. Qed.

(** The "Good" version of the same run: each shape computes its own area, and
    the square of side 5 renders 25 by its own [getArea]. *)
Lemma renderLargeShapes_areas :
  LSP_Good.rendered_areas (events (LSP_Good.renderLargeShapes LSP_Good.shapes))
  = [JsNumber 20; JsNumber 20; JsNumber 25]
  /\ final (LSP_Good.renderLargeShapes LSP_Good.shapes) = LSP_Good.shapes.
Proof. split; reflexivity. Qed.

End LSP_Bad_Facts.

(* ------------------------------------------------------------------ *)
(** ** Interface segregation principle, "Bad": the method that cannot be *)
(* ------------------------------------------------------------------ *)

Module ISP_Bad_Facts.
Import ISP_Bad.

(** C4.  In the ISP "Bad" example [SMSNotifier.attachFile()] throws an
    [Error] with message "SMS doesn't support attaching files" at every call,
    whatever was called on the object before, and [SMSNotifier.notify()]
    returns without throwing. *)
Theorem attachFile_always_throws (history : list Request) (n : SMSNotifier) :
  @attachFile SMSNotifier _ (after history n)
    = ([], after history n, Throw (mkError "SMS doesn't support attaching files"))
  /\ @notify SMSNotifier _ (after history n)
    = ([], after history n, Normal JsUndefined).
Proof. split; reflexivity. Qed.

(** The other implementation of the interface has both methods empty. *)
Lemma EmailNotifier_methods_return (n : EmailNotifier) :
  @attachFile EmailNotifier _ n = ([], n, Normal JsUndefined)
  /\ @notify EmailNotifier _ n = ([], n, Normal JsUndefined).
Proof. split; reflexivity. Qed.

End ISP_Bad_Facts.

(* ------------------------------------------------------------------ *)
(** ** Which methods are placeholders *)
(* ------------------------------------------------------------------ *)

Module Repository_Facts.
Import Repository.

(** [Rectangle.getArea] and [MySQLConnection.connect] are methods of the
    repository and are no placeholders: the one returns the product of the
    sides, the other a string. *)
Lemma getArea_and_connect_are_no_placeholders :
  (In (method0 "LSP Bad" "Rectangle" "getArea" LSP_Bad.getArea) repository_methods
   /\ ~ placeholder (method0 "LSP Bad" "Rectangle" "getArea" LSP_Bad.getArea))
  /\ (In (method0 "DIP Bad" "MySQLConnection" "connect" DIP_Bad.connect)
        repository_methods
      /\ ~ placeholder (method0 "DIP Bad" "MySQLConnection" "connect" DIP_Bad.connect))
  /\ completion (LSP_Bad.getArea (LSP_Bad.mkRectangle LSP_Bad.Rectangle_class 4 5))
     = Normal (JsNumber 20)
  /\ completion (DIP_Bad.connect DIP_Bad.new_MySQLConnection)
     = Normal (JsString "Database connection").
Proof.
  repeat split.
  - unfold repository_methods. simpl. tauto.
  - intros H. specialize (H tt LSP_Bad.new_Rectangle). discriminate H.
  - unfold repository_methods. simpl. tauto.
  - intros H. specialize (H tt DIP_Bad.new_MySQLConnection). discriminate H.
Qed.

(** C1, as amended.  A method of a class of the snippets is an empty
    placeholder (it calls nothing, returns no value, mutates no field and does
    not throw) exactly when it is none of the thirteen listed in
    [methods_with_a_body]: [notifyAll] (OCP Bad and Good), [sendNotification],
    the setters and [getArea] of [Rectangle] and [Square] (LSP Bad), [getArea]
    (LSP Good), [SMSNotifier.attachFile] (ISP Bad) and
    [MySQLConnection.connect] (DIP Bad and Good). *)
Theorem placeholders_are_the_methods_without_a_body :
  Forall (fun m => placeholder m <-> has_a_body m = false) repository_methods.
Proof.
  unfold repository_methods.
  repeat (apply Forall_cons; [placeholder_or_not|]).
  apply Forall_nil.
Qed.

End Repository_Facts.

(* ------------------------------------------------------------------ *)
(** ** Which fields are used *)
(* ------------------------------------------------------------------ *)

Module FieldUse_Facts.
Import FieldUse.

Section Loop.
Context {S F E A : Type} (get : S -> F) (set : F -> S -> S).
Context (relabel : (S -> S) -> E -> E) (body : M S E A).

(** A loop whose body leaves the field alone leaves it alone in every
    element, also when it throws half way. *)
Lemma forEach_never_assigns :
  never_assigns get body ->
  forall xs, map get (final (forEach body xs)) = map get xs.
Proof.
  intros Hb xs. induction xs as [|x rest IH]; [reflexivity|].
  destruct (completion (body x)) as [v|e] eqn:Hx.
  - rewrite (forEach_cons_normal body x rest v Hx).
    unfold final at 1. simpl. now rewrite Hb, IH.
  - rewrite (forEach_cons_throw body x rest e Hx).
    unfold final at 1. simpl. now rewrite Hb.
Qed.

(** A loop whose body does not depend on the field does not depend on the
    elements' fields: it makes the same calls, completes the same way and
    leaves the same elements. *)
Lemma forEach_never_reads :
  never_reads set relabel body ->
  forall xs ys, Forall2 (same_but set) xs ys ->
    Forall2 (same_call set relabel)
      (events (forEach body xs)) (events (forEach body ys))
    /\ completion (forEach body xs) = completion (forEach body ys)
    /\ Forall2 (same_but set) (final (forEach body xs)) (final (forEach body ys)).
Proof.
  intros Hb xs ys H.
  induction H as [|x y xs ys Hxy Hrest IH].
  - repeat apply conj; [constructor | reflexivity | constructor].
  - destruct (Hb x y Hxy) as [He [Hc Hf]].
    destruct (completion (body x)) as [v|e] eqn:Hx; symmetry in Hc.
    + rewrite (forEach_cons_normal body x xs v Hx).
      rewrite (forEach_cons_normal body y ys v Hc).
      destruct IH as [IHe [IHc IHf]].
      unfold events at 1 4, completion at 1 2, final at 1 3. simpl.
      repeat apply conj; [now apply Forall2_app | exact IHc | now constructor].
    + rewrite (forEach_cons_throw body x xs e Hx).
      rewrite (forEach_cons_throw body y ys e Hc).
      unfold events at 1 3, completion at 1 2, final at 1 3. simpl.
      repeat apply conj; [exact He | reflexivity | now constructor].
Qed.

End Loop.

(** An empty body uses no field. *)
Lemma empty_body_never_assigns {S F E} (get : S -> F) :
  never_assigns get (@empty_body S E).
Proof. intros s. reflexivity. Qed.

Lemma empty_body_never_reads {S F E} (set : F -> S -> S)
  (relabel : (S -> S) -> E -> E) :
  never_reads set relabel (@empty_body S E).
Proof.
  intros x y H. repeat apply conj; [constructor | reflexivity | exact H].
Qed.

(** What follows a loop in [notifyAll] changes none of the three. *)
Lemma then_return_events {S E} (m : M S E unit) (s : S) :
  events ((m ;; ret JsUndefined) s) = events (m s).
Proof. now rewrite then_return_undefined. Qed.

Lemma then_return_final {S E} (m : M S E unit) (s : S) :
  final ((m ;; ret JsUndefined) s) = final (m s).
Proof. now rewrite then_return_undefined. Qed.

Lemma then_return_completion {S E} (m : M S E unit) (s s' : S) :
  completion (m s) = completion (m s') ->
  completion ((m ;; ret JsUndefined) s) = completion ((m ;; ret JsUndefined) s').
Proof.
  intros H. rewrite !then_return_undefined. unfold completion at 1 3. simpl.
  now rewrite H.
Qed.

(** In the OCP "Good" example nothing touches [selectedNotifyChannel]. *)
Lemma good_sendNotification_ignores_channel :
  never_assigns OCP_Good.selectedNotifyChannel OCP_Good.sendNotification
  /\ never_reads OCP_Good.set_selectedNotifyChannel OCP_Good.on_employee
       OCP_Good.sendNotification.
Proof.
  split.
  - intros e. apply OCP_Good_Facts.sendNotification_keeps_channel.
  - intros x y [v ->]. rewrite !OCP_Good_Facts.sendNotification_delegates.
    repeat apply conj.
    + constructor; [now exists v | constructor].
    + reflexivity.
    + now exists v.
Qed.

Lemma good_notifyAll_ignores_channel :
  never_assigns_in_elements OCP_Good.selectedNotifyChannel OCP_Good.notifyAll
  /\ never_reads_in_elements OCP_Good.set_selectedNotifyChannel
       OCP_Good.on_employee OCP_Good.notifyAll.
Proof.
  destruct good_sendNotification_ignores_channel as [Ha Hr].
  unfold OCP_Good.notifyAll. split.
  - intros xs. rewrite then_return_final.
    apply forEach_never_assigns. intros e. unfold call.
    specialize (Ha e). now destruct (OCP_Good.sendNotification e) as [[ev e'] c].
  - intros xs ys H.
    assert (Hbody : never_reads OCP_Good.set_selectedNotifyChannel
              OCP_Good.on_employee
              (call OCP_Good.sendNotification_called OCP_Good.sendNotification)).
    { intros x y Hxy. destruct (Hr x y Hxy) as [He [Hc Hf]].
      destruct Hxy as [v ->]. unfold call.
      destruct (OCP_Good.sendNotification x) as [[ev x'] c].
      destruct (OCP_Good.sendNotification _) as [[ev' y'] c'].
      repeat apply conj; [|exact Hc|exact Hf].
      constructor; [now exists v | exact He]. }
    destruct (forEach_never_reads _ _ _ Hbody xs ys H) as [He [Hc Hf]].
    rewrite !then_return_events, !then_return_final.
    repeat apply conj; [exact He | now apply then_return_completion | exact Hf].
Qed.

(** In the OCP "Bad" example no method assigns the channel. *)
Lemma bad_notifyAll_never_assigns_channel :
  never_assigns_in_elements OCP_Bad.selectedNotifyChannel OCP_Bad.notifyAll.
Proof.
  intros xs. unfold OCP_Bad.notifyAll. rewrite then_return_final.
  apply forEach_never_assigns. intros e.
  destruct (OCP_Bad_Facts.known_channel_dec e) as [H|H].
  - now rewrite (OCP_Bad_Facts.notifyAll_body_known e H).
  - now rewrite (OCP_Bad_Facts.notifyAll_body_unknown e H).
Qed.

(** A method that picks its callee by the field reads it, also when it
    completes the same way on both: the [switch] of the OCP "Bad" example
    calls [sendSMSNotification] on one channel and [sendEmailNotification] on
    the other. *)
Lemma choosing_the_callee_is_reading :
  ~ never_reads OCP_Bad.set_selectedNotifyChannel OCP_Bad.on_employee
      OCP_Bad.notifyAll_body.
Proof.
  intros H.
  destruct (H (OCP_Bad.mkEmployee (JsString "SMS"))
              (OCP_Bad.mkEmployee (JsString "Email"))) as [He _].
  - now exists (JsString "Email").
  - inversion He as [|a b l l' [v Hv] _]; subst. discriminate Hv.
Qed.

(** The claim fails at each of its three verbs: [setWidth] assigns [width],
    [getArea] reads [width] to compute its result, and the OCP "Bad"
    [notifyAll] branches on [selectedNotifyChannel]. *)
Lemma fields_are_assigned_read_and_branched_on :
  ~ never_assigns LSP_Bad.width (LSP_Bad.setWidth 4)
  /\ ~ never_reads LSP_Bad.set_width LSP_Bad.on_rectangle LSP_Bad.getArea
  /\ ~ never_reads_in_elements OCP_Bad.set_selectedNotifyChannel
         OCP_Bad.on_employee OCP_Bad.notifyAll.
Proof.
  repeat split.
  - intros H. specialize (H LSP_Bad.new_Rectangle). discriminate H.
  - intros H.
    destruct (H (LSP_Bad.mkRectangle LSP_Bad.Rectangle_class 1 5)
                (LSP_Bad.mkRectangle LSP_Bad.Rectangle_class 4 5)) as [_ [Hc _]].
    + now exists 4%Z.
    + discriminate Hc.
  - intros H.
    destruct (H [OCP_Bad.mkEmployee (JsString "SMS")]
                [OCP_Bad.mkEmployee (JsString "Fax")]) as [_ [Hc _]].
    + constructor; [|constructor]. now exists (JsString "Fax").
    + discriminate Hc.
Qed.

(** C8, as amended.  The field [selectedNotifyChannel] of the OCP "Good"
    [Employee] is never assigned, read or branched on by a method: the calls
    made, the completion and the other fields are the same whatever it holds.
    The placeholder methods use no field either (the send methods of the OCP
    "Bad" [Employee], [setColor] and [render] of the LSP "Bad" [Rectangle]),
    and the OCP "Bad" [notifyAll] never assigns the channel.  The other uses
    are real: in the LSP "Bad" example the setters store their argument in
    [width] and [height] ([Square]'s in both) and [getArea] returns their
    product (for sides and a product that are safe integers), and the OCP
    "Bad" [notifyAll] calls another method, or throws, on employees that
    differ in the channel alone. *)
Theorem fields_used_and_unused :
  (never_assigns OCP_Good.selectedNotifyChannel OCP_Good.sendNotification
   /\ never_reads OCP_Good.set_selectedNotifyChannel OCP_Good.on_employee
        OCP_Good.sendNotification
   /\ never_assigns_in_elements OCP_Good.selectedNotifyChannel OCP_Good.notifyAll
   /\ never_reads_in_elements OCP_Good.set_selectedNotifyChannel
        OCP_Good.on_employee OCP_Good.notifyAll)
  /\ (never_assigns OCP_Bad.selectedNotifyChannel OCP_Bad.sendEmailNotification
      /\ never_reads OCP_Bad.set_selectedNotifyChannel OCP_Bad.on_employee
           OCP_Bad.sendEmailNotification
      /\ never_assigns OCP_Bad.selectedNotifyChannel OCP_Bad.sendSMSNotification
      /\ never_reads OCP_Bad.set_selectedNotifyChannel OCP_Bad.on_employee
           OCP_Bad.sendSMSNotification
      /\ never_assigns_in_elements OCP_Bad.selectedNotifyChannel OCP_Bad.notifyAll)
  /\ (forall v,
        never_assigns LSP_Bad.width (LSP_Bad.setColor v)
        /\ never_reads LSP_Bad.set_width LSP_Bad.on_rectangle (LSP_Bad.setColor v)
        /\ never_assigns LSP_Bad.height (LSP_Bad.setColor v)
        /\ never_reads LSP_Bad.set_height LSP_Bad.on_rectangle (LSP_Bad.setColor v)
        /\ never_assigns LSP_Bad.width (LSP_Bad.render v)
        /\ never_reads LSP_Bad.set_width LSP_Bad.on_rectangle (LSP_Bad.render v)
        /\ never_assigns LSP_Bad.height (LSP_Bad.render v)
        /\ never_reads LSP_Bad.set_height LSP_Bad.on_rectangle (LSP_Bad.render v))
  /\ (forall w r,
        LSP_Bad.width (final (LSP_Bad.Rectangle_setWidth w r)) = w
        /\ LSP_Bad.height (final (LSP_Bad.Rectangle_setHeight w r)) = w
        /\ final (LSP_Bad.Square_setWidth w r)
           = LSP_Bad.mkRectangle (LSP_Bad.class_of r) w w
        /\ final (LSP_Bad.Square_setHeight w r)
           = LSP_Bad.mkRectangle (LSP_Bad.class_of r) w w
        /\ (safe_product (LSP_Bad.width r) (LSP_Bad.height r) ->
            completion (LSP_Bad.getArea r)
            = Normal (JsNumber (LSP_Bad.width r * LSP_Bad.height r))))
  /\ (OCP_Bad.notifyAll [OCP_Bad.mkEmployee (JsString "SMS")]
        = ([OCP_Bad.sendSMSNotification_called (OCP_Bad.mkEmployee (JsString "SMS"))],
           [OCP_Bad.mkEmployee (JsString "SMS")], Normal JsUndefined)
      /\ OCP_Bad.notifyAll [OCP_Bad.mkEmployee (JsString "Email")]
        = ([OCP_Bad.sendEmailNotification_called
              (OCP_Bad.mkEmployee (JsString "Email"))],
           [OCP_Bad.mkEmployee (JsString "Email")], Normal JsUndefined)
      /\ OCP_Bad.notifyAll [OCP_Bad.mkEmployee (JsString "Fax")]
        = ([], [OCP_Bad.mkEmployee (JsString "Fax")],
           Throw (mkError "Unknown Channel"))).
Proof.
  split; [|split; [|split; [|split]]].
  - destruct good_sendNotification_ignores_channel as [Ha Hr].
    destruct good_notifyAll_ignores_channel as [Ha' Hr'].
    exact (conj Ha (conj Hr (conj Ha' Hr'))).
  - repeat apply conj;
      first [ exact (empty_body_never_assigns _)
            | exact (empty_body_never_reads _ _)
            | exact bad_notifyAll_never_assigns_channel ].
  - intros v. repeat apply conj;
      first [ exact (empty_body_never_assigns _)
            | exact (empty_body_never_reads _ _) ].
  - intros w r. repeat apply conj; first [reflexivity | intros _; reflexivity].
  - repeat apply conj; reflexivity.
Qed.

End FieldUse_Facts.
(* ------------------------------------------------------------------ *)
(** ** The snippet files against the README *)
(* ------------------------------------------------------------------ *)

Module Docs_Facts.
Import Docs.

(** The OCP "Good" section of the README has three blocks, and so on. *)
Lemma README_block_counts :
  map (fun section => List.length (fenced_blocks section))
    [README_SRP_Bad; README_SRP_Good; README_OCP_Bad; README_OCP_Good]
  = [1; 3; 2; 3]%nat.
Proof. vm_compute. reflexivity. Qed.

Lemma erase_first_examples :
  erase_first " implements Notifier" "class EmailNotifier implements Notifier {"
    = "class EmailNotifier {"
  /\ erase_first " implements Notifier" "    notify();" = "    notify();".
Proof. split; vm_compute; reflexivity. Qed.

(** Line 6 of [OpenClosedPrinciple-Good.ts] is [class EmailNotifier {], where
    the README's block (line 130) has
    [class EmailNotifier implements Notifier {]; the file is not the README's
    blocks, neither laid out after a [// Good] line nor put end to end. *)
Lemma snippet_file_lacks_implements_clause :
  nth_error OpenClosedPrinciple_Good_ts 5 = Some "class EmailNotifier {"
  /\ nth_error (laid_out "// Good" (fenced_blocks README_OCP_Good)) 5
     = Some "class EmailNotifier implements Notifier {"
  /\ OpenClosedPrinciple_Good_ts
     <> laid_out "// Good" (fenced_blocks README_OCP_Good)
  /\ OpenClosedPrinciple_Good_ts <> concat (fenced_blocks README_OCP_Good).
Proof.
  repeat apply conj; try (vm_compute; reflexivity); intros H.
  - differ_at_line 5%nat H.
  - differ_at_line 0%nat H.
Qed.

(** C2, as amended.  Each standalone snippet file is a [// Bad] or [// Good]
    comment line followed by the fenced blocks of the matching README section,
    one blank line between blocks.  [OpenClosedPrinciple-Good.ts] has the
    blocks of the README's OCP "Good" section without the
    [ implements Notifier] clauses; the SRP file and the OCP "Bad" file have,
    character for character, the blocks of the README copy
    [src/unnamed/part_002], whose SRP "Good" and OCP "Good" blocks are those
    of [src/README.md]. *)
Theorem snippet_files_mirror_the_README_blocks :
  OpenClosedPrinciple_Good_ts
    = laid_out "// Good"
        (map (map (erase_first " implements Notifier"))
           (fenced_blocks README_OCP_Good))
  /\ SRP_ts
     = laid_out "// Bad" (fenced_blocks README_copy_SRP_Bad)
       ++ "" :: laid_out "// Good" (fenced_blocks README_copy_SRP_Good)
  /\ OCP_Bad_ts = laid_out "// Bad" (fenced_blocks README_copy_OCP_Bad)
  /\ fenced_blocks README_copy_SRP_Good = fenced_blocks README_SRP_Good
  /\ fenced_blocks README_copy_OCP_Good = fenced_blocks README_OCP_Good.
Proof. repeat apply conj; vm_compute; reflexivity. Qed.

(** Against [src/README.md] itself the two other files have drifted: the
    README's [Salary] block has no blank line after the class header, and its
    OCP "Bad" [Employee] declares [selectedNotifyChannel: string] and drops the
    [public] modifiers. *)
Lemma README_differs_from_the_other_snippet_files :
  concat (fenced_blocks README_SRP_Bad) <> concat (fenced_blocks README_copy_SRP_Bad)
  /\ concat (fenced_blocks README_OCP_Bad) <> concat (fenced_blocks README_copy_OCP_Bad)
  /\ nth_error SRP_ts 2 = Some ""
  /\ nth_error (laid_out "// Bad" (fenced_blocks README_SRP_Bad)) 2
     = Some "    calculateSalary(){"
  /\ nth_error OCP_Bad_ts 2 = Some "    public selectedNotifyChannel;"
  /\ nth_error (laid_out "// Bad" (fenced_blocks README_OCP_Bad)) 2
     = Some "    selectedNotifyChannel: string;".
Proof.
  repeat apply conj; try (vm_compute; reflexivity); intros H.
  - differ_at_line 1%nat H.
  - differ_at_line 1%nat H.
Qed.

End Docs_Facts.

(* ------------------------------------------------------------------ *)
(** ** Open/closed principle: how far the loops get *)
(* ------------------------------------------------------------------ *)

Module OCP_Loop_Facts.

Lemma known_channelb_spec (e : OCP_Bad.Employee) :
  OCP_Bad.known_channelb e = true <-> OCP_Bad.known_channel e.
Proof.
  unfold OCP_Bad.known_channelb, OCP_Bad.known_channel.
  rewrite orb_true_iff, !strict_equals_string. reflexivity.
Qed.

Lemma bad_loop_spec (employees : list OCP_Bad.Employee) :
  forEach OCP_Bad.notifyAll_body employees
  = (map OCP_Bad.matching_send (OCP_Bad.reached employees),
     employees,
     if forallb OCP_Bad.known_channelb employees
     then Normal tt
     else Throw (mkError "Unknown Channel")).
Proof.
  induction employees as [|e rest IH]; [reflexivity|].
  cbn [OCP_Bad.reached forallb].
  destruct (OCP_Bad.known_channelb e) eqn:Hk.
  - apply known_channelb_spec in Hk.
    rewrite (forEach_cons_normal _ e rest JsUndefined)
      by now rewrite (OCP_Bad_Facts.notifyAll_body_known e Hk).
    rewrite IH, (OCP_Bad_Facts.notifyAll_body_known e Hk). reflexivity.
  - assert (Hu : ~ OCP_Bad.known_channel e).
    { intros H. apply known_channelb_spec in H. congruence. }
    rewrite (forEach_cons_throw _ e rest (mkError "Unknown Channel"))
      by now rewrite (OCP_Bad_Facts.notifyAll_body_unknown e Hu).
    rewrite (OCP_Bad_Facts.notifyAll_body_unknown e Hu). reflexivity.
Qed.

(** In the OCP "Bad" example [notifyAll] notifies, by the matching send
    method and in order, the employees before the first one whose channel is
    neither 'SMS' nor 'Email', and nobody after it; it leaves the array as it
    was; and it returns when there is no such employee and throws
    'Unknown Channel' when there is one. *)
Theorem bad_notifyAll_notifies_up_to_first_unknown
  (employees : list OCP_Bad.Employee) :
  OCP_Bad.notifyAll employees
  = (map OCP_Bad.matching_send (OCP_Bad.reached employees),
     employees,
     if forallb OCP_Bad.known_channelb employees
     then Normal JsUndefined
     else Throw (mkError "Unknown Channel")).
Proof.
  unfold OCP_Bad.notifyAll. rewrite then_return_undefined, bad_loop_spec.
  unfold events, final, completion. simpl.
  now destruct (forallb OCP_Bad.known_channelb employees).
Qed.

(** One turn of the loop of the "Good" [notifyAll]. *)
Lemma good_loop_turn (e : OCP_Good.Employee) :
  call OCP_Good.sendNotification_called OCP_Good.sendNotification e
  = (OCP_Good.calls_for e, OCP_Good.notified e,
     completion (OCP_Good.sendNotification e)).
Proof.
  unfold call, OCP_Good.calls_for, OCP_Good.notified.
  rewrite OCP_Good_Facts.sendNotification_delegates. reflexivity.
Qed.




(** With the notifiers of the repository, which keep no state, [notifyAll]
    leaves every employee as it was. *)
Lemma repository_notifier_keeps_employee (e : OCP_Good.Employee) :
  OCP_Good.notifier e = OCP_Good.email \/ OCP_Good.notifier e = OCP_Good.sms ->
  OCP_Good.notified e = e /\ OCP_Good.notify_returns (OCP_Good.notifier e).
Proof.
  destruct e as [n c]. simpl.
  intros [-> | ->]; (split; [reflexivity | intros self; now exists JsUndefined]).
Qed.

(** In the OCP "Good" example, on employees built with the repository's
    [EmailNotifier] and [SMSNotifier] objects, [notifyAll] returns and leaves
    the array and every employee in it unchanged. *)
Theorem good_notifyAll_with_repository_notifiers
  (employees : list OCP_Good.Employee) :
  Forall (fun e => OCP_Good.notifier e = OCP_Good.email
                   \/ OCP_Good.notifier e = OCP_Good.sms) employees ->
  OCP_Good.notifyAll employees
  = (flat_map OCP_Good.calls_for employees, employees, Normal JsUndefined).
Proof.
  intros H.
  assert (Hr : Forall (fun e => OCP_Good.notify_returns (OCP_Good.notifier e))
                 employees).
  { eapply Forall_impl; [|exact H]. intros e He.
    now apply repository_notifier_keeps_employee. }
  unfold OCP_Good.notifyAll. rewrite then_return_undefined.
  rewrite forEach_all_normal.
  - unfold events, final, completion. simpl. f_equal. f_equal.
    + induction H as [|e rest He _ IH]; [reflexivity|].
      inversion Hr; subst. simpl. rewrite good_loop_turn, IH by assumption.
      reflexivity.
    + induction H as [|e rest He _ IH]; [reflexivity|].
      inversion Hr; subst. simpl. rewrite good_loop_turn, IH by assumption.
      unfold final. simpl.
      now destruct (repository_notifier_keeps_employee e He) as [-> _].
  - eapply Forall_impl; [|exact Hr]. intros e He. rewrite good_loop_turn.
    unfold completion at 1. simpl.
    rewrite (OCP_Good_Facts.sendNotification_returns e He). now exists JsUndefined.
Qed.

Lemma good_notifyAll_with_repository_notifiers_witness :
  Forall (fun e => OCP_Good.notifier e = OCP_Good.email
                   \/ OCP_Good.notifier e = OCP_Good.sms) OCP_Good.two_employees
  /\ OCP_Good.notifyAll OCP_Good.two_employees
     = (flat_map OCP_Good.calls_for OCP_Good.two_employees,
        OCP_Good.two_employees, Normal JsUndefined).
Proof.
  assert (H : Forall (fun e => OCP_Good.notifier e = OCP_Good.email
                               \/ OCP_Good.notifier e = OCP_Good.sms)
                OCP_Good.two_employees).
  { constructor; [now left|]. constructor; [now right|]. constructor. }
  split; [exact H|].
  exact (good_notifyAll_with_repository_notifiers OCP_Good.two_employees H).
Defined.

End OCP_Loop_Facts.

(* ------------------------------------------------------------------ *)
(** ** Liskov substitution principle: setters, areas and the two renderers *)
(* ------------------------------------------------------------------ *)

Module LSP_More_Facts.
Import LSP_Bad.

(** One turn of the loop of [renderLargeRectangles]. *)
Lemma renderLargeRectangles_turn (r : Rectangle) :
  (call (setWidth_called 4) (setWidth 4) ;;
   call (setHeight_called 5) (setHeight 5) ;;
   area <- call getArea_called getArea ;;
   call (render_called area) (render area)) r
  = ([setWidth_called 4 r;
      setHeight_called 5 (final (setWidth 4 r));
      getArea_called (enlarged r);
      render_called (enlarged_area r) (enlarged r)],
     enlarged r, Normal JsUndefined).
Proof. destruct r as [[] w h]; reflexivity. Qed.

(** In the LSP "Bad" example [renderLargeRectangles], on any array of
    rectangles and squares in any state, returns without throwing, hands
    [render] the area 20 for every [Rectangle] and 25 for every [Square], in
    array order, and leaves every [Rectangle] 4 by 5 and every [Square] 5 by
    5; so a second run changes nothing more. *)
Theorem renderLargeRectangles_on_any_array (rs : list Rectangle) :
  rendered_areas (events (renderLargeRectangles rs)) = map enlarged_area rs
  /\ final (renderLargeRectangles rs) = map enlarged rs
  /\ completion (renderLargeRectangles rs) = Normal JsUndefined
  /\ final (renderLargeRectangles (final (renderLargeRectangles rs)))
     = final (renderLargeRectangles rs).
Proof.
  assert (Hrun : forall xs,
            renderLargeRectangles xs
            = (flat_map (fun r => [setWidth_called 4 r;
                                   setHeight_called 5 (final (setWidth 4 r));
                                   getArea_called (enlarged r);
                                   render_called (enlarged_area r) (enlarged r)])
                 xs,
               map enlarged xs, Normal JsUndefined)).
  { intros xs. unfold renderLargeRectangles. rewrite then_return_undefined.
    rewrite forEach_all_normal.
    - unfold events, final, completion. simpl. f_equal. f_equal.
      + induction xs as [|x xs IH]; [reflexivity|].
        simpl flat_map. rewrite renderLargeRectangles_turn, IH. reflexivity.
      + induction xs as [|x xs IH]; [reflexivity|].
        simpl map. rewrite renderLargeRectangles_turn, IH. reflexivity.
    - apply Forall_forall. intros x _. rewrite renderLargeRectangles_turn.
      now exists JsUndefined. }
  rewrite !Hrun. unfold events, final, completion. simpl.
  repeat apply conj; try reflexivity.
  - induction rs as [|r rs IH]; [reflexivity|]. simpl. now rewrite IH.
  - rewrite map_map. apply map_ext. now intros [[] w h].
Qed.

(** In the LSP "Bad" example, for safe integers [w] and [h] whose products
    [w * h], [w * w] and [h * h] are safe integers: after [setWidth(w)] then
    [setHeight(h)] on an object in any state, [getArea()] returns [w * h] for
    a [Rectangle] and [h * h] for a [Square]; with the two setters in the
    other order it returns [w * h] for a [Rectangle] and [w * w] for a
    [Square]. *)
Theorem area_after_both_setters (w h : Z) (r : Rectangle) :
  safe_product w h -> safe_product w w -> safe_product h h ->
  completion ((setWidth w ;; setHeight h ;; getArea) r)
    = Normal (JsNumber (match class_of r with
                        | Rectangle_class => w * h
                        | Square_class => h * h
                        end))
  /\ completion ((setHeight h ;; setWidth w ;; getArea) r)
    = Normal (JsNumber (match class_of r with
                        | Rectangle_class => w * h
                        | Square_class => w * w
                        end)).
Proof. intros _ _ _. destruct r as [[] w0 h0]; split; reflexivity. Qed.

Lemma area_after_both_setters_witness :
  safe_product 4 5 /\ safe_product 4 4 /\ safe_product 5 5
  /\ completion ((setWidth 4 ;; setHeight 5 ;; getArea) new_Square)
     = Normal (JsNumber (match class_of new_Square with
                         | Rectangle_class => 4 * 5
                         | Square_class => 5 * 5
                         end))
  /\ completion ((setHeight 5 ;; setWidth 4 ;; getArea) new_Square)
     = Normal (JsNumber (match class_of new_Square with
                         | Rectangle_class => 4 * 5
                         | Square_class => 4 * 4
                         end)).
Proof.
  assert (H1 : safe_product 4 5) by (unfold safe_product, safe_integer; lia).
  assert (H2 : safe_product 4 4) by (unfold safe_product, safe_integer; lia).
  assert (H3 : safe_product 5 5) by (unfold safe_product, safe_integer; lia).
  split; [exact H1|]. split; [exact H2|]. split; [exact H3|].
  exact (area_after_both_setters 4 5 new_Square H1 H2 H3).
Defined.

(** In the LSP "Bad" example [setHeight(h)] leaves [width] as it was exactly
    when the object is a [Rectangle] or its width is already [h], and
    [setWidth(w)] leaves [height] as it was exactly when the object is a
    [Rectangle] or its height is already [w]. *)
Theorem setter_keeps_the_other_side_iff (v : Z) (r : Rectangle) :
  (width (final (setHeight v r)) = width r
   <-> class_of r = Rectangle_class \/ width r = v)
  /\ (height (final (setWidth v r)) = height r
      <-> class_of r = Rectangle_class \/ height r = v).
Proof.
  destruct r as [[] w0 h0]; simpl; (split; split);
    try (intros _; now left); try reflexivity;
    try (intros H; now right); intros [H|H]; congruence.
Qed.

Lemma after_on_a_Rectangle (ops : list Operation) (w0 h0 : Z) :
  after ops (mkRectangle Rectangle_class w0 h0)
  = mkRectangle Rectangle_class (last_width ops w0) (last_height ops h0).
Proof.
  unfold after. revert w0 h0.
  induction ops as [|op ops IH]; intros w0 h0; [reflexivity|].
  destruct op as [color|area|w|h|].
  - exact (IH w0 h0).
  - exact (IH w0 h0).
  - exact (IH w h0).
  - exact (IH w0 h).
  - exact (IH w0 h0).
Qed.

Lemma after_on_a_Square (ops : list Operation) (w0 h0 : Z) :
  after ops (mkRectangle Square_class w0 h0)
  = mkRectangle Square_class (last_side ops w0) (last_side ops h0).
Proof.
  unfold after. revert w0 h0.
  induction ops as [|op ops IH]; intros w0 h0; [reflexivity|].
  destruct op as [color|area|w|h|].
  - exact (IH w0 h0).
  - exact (IH w0 h0).
  - exact (IH w w).
  - exact (IH h h).
  - exact (IH w0 h0).
Qed.

(** In the LSP "Bad" example, after any sequence of operations a [Rectangle]
    has the width of the last [setWidth] and the height of the last
    [setHeight] (what it had before, where there was no such call), and a
    [Square] has in both fields the argument of the last setter of either
    kind; [setColor], [render] and [getArea] change nothing. *)
Theorem after_is_the_last_setters (ops : list Operation) (r : Rectangle) :
  after ops r
  = match class_of r with
    | Rectangle_class =>
        mkRectangle Rectangle_class
          (last_width ops (width r)) (last_height ops (height r))
    | Square_class =>
        mkRectangle Square_class
          (last_side ops (width r)) (last_side ops (height r))
    end.
Proof.
  destruct r as [[] w0 h0]; simpl.
  - apply after_on_a_Rectangle.
  - apply after_on_a_Square.
Qed.

(** The "Good" classes compute the areas that the "Bad" ones have once their
    setters were called: [new Rectangle(w, h).getArea()] is the area of a
    "Bad" [Rectangle] after [setWidth(w)] and [setHeight(h)], and
    [new Square(l).getArea()] is the area of a "Bad" [Square] after
    [setWidth(l)], and after [setHeight(l)]. *)
Theorem good_shapes_have_the_bad_areas (w h l : Z) :
  completion (LSP_Good.getArea (LSP_Good.a_Rectangle (LSP_Good.new_Rectangle w h)))
    = completion (getArea (after [do_setWidth w; do_setHeight h] new_Rectangle))
  /\ completion (LSP_Good.getArea (LSP_Good.a_Square (LSP_Good.new_Square l)))
    = completion (getArea (after [do_setWidth l] new_Square))
  /\ completion (LSP_Good.getArea (LSP_Good.a_Square (LSP_Good.new_Square l)))
    = completion (getArea (after [do_setHeight l] new_Square)).
Proof. repeat apply conj; reflexivity. Qed.

(** One turn of the loop of [renderLargeShapes]. *)
Lemma renderLargeShapes_turn (shape : LSP_Good.Shape) :
  (area <- call LSP_Good.getArea_called LSP_Good.getArea ;;
   call (LSP_Good.render_called area) (LSP_Good.render area)) shape
  = ([LSP_Good.getArea_called shape;
      LSP_Good.render_called (JsNumber (LSP_Good.area shape)) shape],
     shape, Normal JsUndefined).
Proof. destruct shape as [[w h]|[l]]; reflexivity. Qed.

(** In the LSP "Good" example [renderLargeShapes], on any array of shapes
    whose sides and areas are safe integers, returns without throwing, asks
    each shape for its area and hands that area to the shape's [render], in
    array order ([width * height] for a [Rectangle], [length * length] for a
    [Square]), and changes no shape. *)
Theorem renderLargeShapes_on_any_array (shapes : list LSP_Good.Shape) :
  Forall LSP_Good.safe_shape shapes ->
  LSP_Good.renderLargeShapes shapes
  = (flat_map (fun shape =>
                 [LSP_Good.getArea_called shape;
                  LSP_Good.render_called (JsNumber (LSP_Good.area shape)) shape])
       shapes,
     shapes, Normal JsUndefined)
  /\ LSP_Good.rendered_areas (events (LSP_Good.renderLargeShapes shapes))
     = map (fun shape => JsNumber (LSP_Good.area shape)) shapes.
Proof.
  intros _.
  assert (Hrun :
    LSP_Good.renderLargeShapes shapes
    = (flat_map (fun shape =>
                   [LSP_Good.getArea_called shape;
                    LSP_Good.render_called (JsNumber (LSP_Good.area shape)) shape])
         shapes,
       shapes, Normal JsUndefined)).
  { unfold LSP_Good.renderLargeShapes. rewrite then_return_undefined.
    rewrite forEach_all_normal.
    - unfold events, final, completion. simpl. f_equal. f_equal.
      + induction shapes as [|x xs IH]; [reflexivity|].
        simpl flat_map. rewrite renderLargeShapes_turn, IH. reflexivity.
      + induction shapes as [|x xs IH]; [reflexivity|].
        simpl map. rewrite renderLargeShapes_turn, IH. reflexivity.
    - apply Forall_forall. intros x _. rewrite renderLargeShapes_turn.
      now exists JsUndefined. }
  split; [exact Hrun|]. rewrite Hrun. unfold events. simpl. clear Hrun.
  induction shapes as [|x xs IH]; [reflexivity|]. simpl. now rewrite IH.
Qed.

Lemma renderLargeShapes_on_any_array_witness :
  Forall LSP_Good.safe_shape LSP_Good.shapes
  /\ LSP_Good.renderLargeShapes LSP_Good.shapes
     = (flat_map (fun shape =>
                    [LSP_Good.getArea_called shape;
                     LSP_Good.render_called (JsNumber (LSP_Good.area shape)) shape])
          LSP_Good.shapes,
        LSP_Good.shapes, Normal JsUndefined)
  /\ LSP_Good.rendered_areas (events (LSP_Good.renderLargeShapes LSP_Good.shapes))
     = map (fun shape => JsNumber (LSP_Good.area shape)) LSP_Good.shapes.
Proof.
  assert (H : Forall LSP_Good.safe_shape LSP_Good.shapes).
  { repeat constructor; simpl; unfold safe_integer; lia. }
  split; [exact H|].
  exact (renderLargeShapes_on_any_array LSP_Good.shapes H).
Defined.

End LSP_More_Facts.
